(** * high-rated-dining-search: a shallow embedding of [main.py]

    The program geocodes an address, asks a places service for nearby
    venues, keeps those whose rating reaches a threshold and renders them.
    Python values are embedded as the inductive [pyval]; exceptions as an
    explicit [outcome]; the two HTTP calls and the widgets as a state that
    logs every request issued and every widget drawn, read against a
    [world] that fixes what the environment answers. *)

From Stdlib Require Import QArith DecimalString Ascii.
From stdpp Require Import gmap strings list fin_maps.

#[local] Set Warnings "-register-all".
#[local] Open Scope string_scope.

(** ** Python values *)

(** A float as the comparison operators see it.  Every finite double is a
    rational, and Python compares ints with floats exactly, so order
    comparisons on finite numbers are those of [Q]; the three special
    doubles are kept apart ([json] accepts [NaN] and [Infinity]). *)
Inductive pyfloat :=
| Finite (q : Q)
| PosInf
| NegInf
| NaN.

(** What [response.json()] can hand back: [None], [bool], [int], [float],
    [str], [list] and [dict] with [str] keys. *)
Inductive pyval :=
| PNone
| PBool (b : bool)
| PInt (z : Z)
| PFloat (f : pyfloat)
| PStr (s : string)
| PList (l : list pyval)
| PDict (d : gmap string pyval).

(** [a >= b] on floats: false as soon as a [NaN] is involved. *)
Definition float_ge (a b : pyfloat) : bool :=
  match a, b with
  | NaN, _ | _, NaN => false
  | PosInf, _ => true
  | _, NegInf => true
  | Finite x, Finite y => Qle_bool y x
  | Finite _, PosInf => false
  | NegInf, _ => false
  end.

(** [a > b] on floats. *)
Definition float_gt (a b : pyfloat) : bool :=
  match a, b with
  | NaN, _ | _, NaN => false
  | _, PosInf => false
  | NegInf, _ => false
  | Finite x, Finite y => negb (Qle_bool x y)
  | PosInf, _ => true
  | Finite _, NegInf => true
  end.

(** The number a value stands for in an arithmetic comparison: [bool] is a
    subclass of [int]; the other types are not numbers. *)
Definition py_number (v : pyval) : option pyfloat :=
  match v with
  | PInt z => Some (Finite (inject_Z z))
  | PBool b => Some (Finite (inject_Z (if b then 1 else 0)))
  | PFloat f => Some f
  | _ => None
  end.

(** ** Exceptions *)

(** The built-in exceptions the subscripts, [.get] calls and comparisons of
    the program can raise. *)
Inductive builtin_error :=
| KeyError (key : pyval)
| IndexError
| TypeError
| AttributeError.

Inductive exn :=
| Exception (message : string)      (* [raise Exception(message)] *)
| Builtin (e : builtin_error)
| TransportError (text : string)    (* raised inside [requests] *)
| LibraryError (text : string).     (* raised inside [folium], [pandas]
                                       or [streamlit] *)

Inductive outcome (A : Type) :=
| Return (x : A)
| Raise (e : exn).
Arguments Return {A} x.
Arguments Raise {A} e.

#[export] Instance outcome_ret : MRet outcome := λ A x, Return x.
#[export] Instance outcome_bind : MBind outcome := λ A B f m,
  match m with
  | Return x => f x
  | Raise e => Raise e
  end.

(** ** Operations on values *)

(** [v[key]] with a [str] key. *)
Definition py_getitem (v : pyval) (key : string) : outcome pyval :=
  match v with
  | PDict d =>
      match d !! key with
      | Some x => Return x
      | None => Raise (Builtin (KeyError (PStr key)))
      end
  | _ => Raise (Builtin TypeError)
  end.

(** [v[0]].  A [dict] decoded from JSON has only [str] keys, so [0] is
    never one of them. *)
Definition py_getitem0 (v : pyval) : outcome pyval :=
  match v with
  | PList (x :: _) => Return x
  | PList [] => Raise (Builtin IndexError)
  | PStr (String c _) => Return (PStr (String c ""))
  | PStr "" => Raise (Builtin IndexError)
  | PDict _ => Raise (Builtin (KeyError (PInt 0)))
  | _ => Raise (Builtin TypeError)
  end.

(** [v.get(key, dflt)]: only a [dict] has the method. *)
Definition py_get (v : pyval) (key : string) (dflt : pyval) : outcome pyval :=
  match v with
  | PDict d => Return (default dflt (d !! key))
  | _ => Raise (Builtin AttributeError)
  end.

(** [v == s] for a [str] literal [s]: never raises. *)
Definition py_eq_str (v : pyval) (s : string) : bool :=
  match v with
  | PStr s' => String.eqb s' s
  | _ => false
  end.

(** [v >= m] for a number [m]: a [TypeError] unless [v] is a number. *)
Definition py_ge (v : pyval) (m : pyfloat) : outcome bool :=
  match py_number v with
  | Some x => Return (float_ge x m)
  | None => Raise (Builtin TypeError)
  end.

(** The items a [for] loop draws from [v]: the elements of a [list], the
    keys of a [dict], the characters of a [str] (one per byte here; each
    is a [str] whatever the encoding). *)
Definition py_iter (v : pyval) : outcome (list pyval) :=
  match v with
  | PList l => Return l
  | PDict d => Return (PStr <$> (map_to_list d).*1)
  | PStr s => Return ((λ c, PStr (String c "")) <$> String.list_ascii_of_string s)
  | _ => Raise (Builtin TypeError)
  end.

(** Truth value of a [str]. *)
Definition str_truthy (s : string) : bool := negb (String.eqb s "").

(** Truth value of a [str] or [None]. *)
Definition opt_truthy (o : option string) : bool :=
  match o with
  | Some s => str_truthy s
  | None => false
  end.

(** ** The environment and the effects *)

(** What one GET, followed by [.json()] on the response, comes to. *)
Inductive reply :=
| ConnectionFailed (text : string)   (* [requests.get] raises *)
| InvalidJson (text : string)        (* [response.json()] raises *)
| JsonBody (body : pyval).

Record marker := Marker {
  position : pyval * pyval;
  popup : string;
  tooltip : pyval
}.

(** The calls into [folium], [pandas] and [streamlit] that are handed
    values taken from the responses, and so may raise on them. *)
Inductive library_call :=
| folium_Map (location : pyval * pyval) (zoom_start : Z)
| folium_Marker (m : marker)          (* [folium.Marker(...).add_to(map_)] *)
| folium_static (location : pyval * pyval) (zoom_start : Z) (markers : list marker)
| pd_DataFrame (names ratings : list pyval)
| st_dataframe (names ratings : list pyval).

Record world := World {
  (* [os.getenv], once [load_dotenv()] has run *)
  os_getenv : string → option string;
  (* the services behind [requests.get], by request URL *)
  upstream : string → reply;
  (* the widgets' values, by label *)
  text_input : string → string;
  selectbox : string → list string → string;
  button : string → bool;
  (* [str(v)] of a float, list or dict *)
  runtime_str : pyval → string;
  (* [str(e)] of a built-in exception *)
  error_text : builtin_error → string;
  (* the text of the exception a library call raises, if it raises *)
  library_raises : library_call → option string
}.

(** What the page shows, in the order the calls are made. *)
Inductive widget :=
| StError (text : string)
| StTitle (text : string)
| StTextInput (label : string)
| StSelectbox (label : string) (options : list string)
| StButton (label : string)
| StWrite (text : string)
| FoliumStatic (location : pyval * pyval) (zoom_start : Z) (markers : list marker)
| StDataframe (names ratings : list pyval).

Record state := State {
  requests : list string;   (* the URLs given to [requests.get] so far *)
  screen : list widget
}.

Definition M (A : Type) : Type := state → outcome A * state.

#[export] Instance M_ret : MRet M := λ A x s, (Return x, s).
#[export] Instance M_bind : MBind M := λ A B f m s,
  match m s with
  | (Return x, s') => f x s'
  | (Raise e, s') => (Raise e, s')
  end.

Definition lift {A} (o : outcome A) : M A := λ s, (o, s).

(** [try: body  except Exception as e: handler e]. *)
Definition try_except {A} (body : M A) (handler : exn → M A) : M A := λ s,
  match body s with
  | (Return x, s') => (Return x, s')
  | (Raise e, s') => handler e s'
  end.

Definition draw (x : widget) : M unit := λ s,
  (Return (), {| requests := requests s; screen := screen s ++ [x] |}).

(** The state once one more GET has gone out. *)
Definition sent (url : string) (s : state) : state :=
  {| requests := requests s ++ [url]; screen := screen s |}.

(** ** The program *)

(** [str(v)], as an f-string field formats it. *)
Definition py_str (w : world) (v : pyval) : string :=
  match v with
  | PStr s => s
  | PNone => "None"
  | PBool true => "True"
  | PBool false => "False"
  | PInt z => NilZero.string_of_int (Z.to_int z)
  | _ => runtime_str w v
  end.

(** [str(e)] of a caught exception. *)
Definition exn_str (w : world) (e : exn) : string :=
  match e with
  | Exception message => message
  | TransportError text => text
  | LibraryError text => text
  | Builtin b => error_text w b
  end.

Record Restaurant := mkRestaurant {
  name : pyval;
  rating : pyval;
  address : pyval;
  lat : pyval;
  lng : pyval
}.

Section Program.
Context (w : world).

(** [requests.get(url)]: the call is logged, with the URL it is given,
    before anything can fail. *)
Definition requests_get (url : string) : M reply := λ s,
  match upstream w url with
  | ConnectionFailed text => (Raise (TransportError text), sent url s)
  | r => (Return r, sent url s)
  end.

(** [response.json()]. *)
Definition response_json (response : reply) : M pyval :=
  match response with
  | JsonBody body => mret body
  | InvalidJson text | ConnectionFailed text => lift (Raise (TransportError text))
  end.

Definition geocode_endpoint : string :=
  "https://maps.googleapis.com/maps/api/geocode/json".

Definition geocode_url (address api_key : string) : string :=
  geocode_endpoint +:+ "?address=" +:+ address +:+ "&key=" +:+ api_key.

Definition geocode_failed : string := "住所を取得できませんでした".

(** Lines 34-38: what [get_coordinates] does with the decoded body. *)
Definition read_coordinates (result : pyval) : outcome (pyval * pyval) :=
  status ← py_getitem result "status";
  if py_eq_str status "OK" then
    results ← py_getitem result "results";
    first ← py_getitem0 results;
    geometry ← py_getitem first "geometry";
    location ← py_getitem geometry "location";
    lat ← py_getitem location "lat";
    lng ← py_getitem location "lng";
    Return (lat, lng)
  else Raise (Exception geocode_failed).

Definition get_coordinates (address api_key : string) : M (pyval * pyval) :=
  response ← requests_get (geocode_url address api_key);
  result ← response_json response;
  lift (read_coordinates result).

Definition places_endpoint : string :=
  "https://maps.googleapis.com/maps/api/place/nearbysearch/json".

(** Lines 56-60: the request URL of the nearby search. *)
Definition places_url (lat lng : pyval) (api_key : string) (radius : pyval)
    (keyword place_type : option string) : string :=
  let places_url :=
    places_endpoint +:+ "?location=" +:+ py_str w lat +:+ "," +:+ py_str w lng
      +:+ "&radius=" +:+ py_str w radius +:+ "&key=" +:+ api_key in
  let places_url :=
    if opt_truthy keyword
    then places_url +:+ "&keyword=" +:+ default "" keyword
    else places_url in
  if opt_truthy place_type
  then places_url +:+ "&type=" +:+ default "" place_type
  else places_url.

(** The [Restaurant(...)] call of the comprehension, arguments evaluated
    left to right. *)
Definition restaurant_of (place : pyval) : outcome Restaurant :=
  name ← py_get place "name" PNone;
  rating ← py_get place "rating" PNone;
  vicinity ← py_get place "vicinity" PNone;
  geometry ← py_getitem place "geometry";
  location ← py_getitem geometry "location";
  lat ← py_getitem location "lat";
  geometry ← py_getitem place "geometry";
  location ← py_getitem geometry "location";
  lng ← py_getitem location "lng";
  Return (mkRestaurant name rating vicinity lat lng).

(** Lines 65-74: the list comprehension, place by place. *)
Fixpoint high_rated_restaurants (min_rating : pyfloat) (results : list pyval)
    : outcome (list Restaurant) :=
  match results with
  | [] => Return []
  | place :: rest =>
      rating ← py_get place "rating" (PInt 0);
      keep ← py_ge rating min_rating;
      if keep : bool then
        r ← restaurant_of place;
        rs ← high_rated_restaurants min_rating rest;
        Return (r :: rs)
      else high_rated_restaurants min_rating rest
  end.

Definition default_radius : pyval := PInt 1000.
Definition default_min_rating : pyfloat := Finite 4.

(** Lines 63-75 on the decoded body. *)
Definition read_places (min_rating : pyfloat) (body : pyval)
    : outcome (list Restaurant) :=
  results ← py_get body "results" (PList []);
  places ← py_iter results;
  high_rated_restaurants min_rating places.

(** [radius] and [min_rating] are [None] when the caller omits them;
    [keyword] and [place_type] default to Python's [None]. *)
Definition search_nearby_places (lat lng : pyval) (api_key : string)
    (radius : option pyval) (min_rating : option pyfloat)
    (keyword place_type : option string) : M (list Restaurant) :=
  let radius := default default_radius radius in
  let min_rating := default default_min_rating min_rating in
  response ← requests_get (places_url lat lng api_key radius keyword place_type);
  body ← response_json response;
  lift (read_places min_rating body).

Definition api_key_missing : string :=
  "Google APIキーが設定されていません。.envファイルにGOOGLE_API_KEYを設定してください。".
Definition app_title : string := "飲食店検索アプリ".
Definition address_label : string := "検索したい住所を入力してください".
Definition keyword_label : string :=
  "キーワードを入力してください（例：焼肉、焼き鳥）".
Definition place_type_label : string := "ジャンルを選択してください（任意）".
Definition place_type_options : list string :=
  ["None"; "restaurant"; "cafe"; "bar"; "bakery"; "meal_takeaway";
   "shopping_mall"; "clothing_store"; "book_store"; "electronics_store";
   "furniture_store"; "movie_theater"; "museum"; "night_club"; "park"; "spa";
   "hospital"; "pharmacy"; "school"; "library"; "police"; "airport";
   "bus_station"; "subway_station"; "taxi_stand"; "train_station"].
Definition search_label : string := "検索".
Definition address_missing : string := "住所を入力してください".
Definition nothing_found : string :=
  "指定された条件に該当する評価4以上の飲食店が見つかりませんでした。".
Definition results_caption : string := "検索結果:".
Definition error_prefix : string := "エラーが発生しました: ".
Definition newline : string := String (Ascii.ascii_of_nat 10) "".

(** Lines 110-114: the marker of one restaurant. *)
Definition marker_of (r : Restaurant) : marker :=
  {| position := (lat r, lng r);
     popup := py_str w (name r) +:+ newline +:+ "Rating: " +:+ py_str w (rating r)
                +:+ newline +:+ "Address: " +:+ py_str w (address r);
     tooltip := name r |}.

(** A library call on values from the responses: it goes through or
    raises. *)
Definition call (c : library_call) : M unit := λ s,
  match library_raises w c with
  | Some text => (Raise (LibraryError text), s)
  | None => (Return (), s)
  end.

(** Lines 109-114: the loop that adds the markers to the map. *)
Fixpoint add_markers (markers : list marker) : M unit :=
  match markers with
  | [] => mret ()
  | m :: rest => call (folium_Marker m);; add_markers rest
  end.

(** Lines 107-125: the map and the table.  [folium_static] and
    [st.dataframe] draw unless they raise. *)
Definition render (lat lng : pyval) (restaurants : list Restaurant) : M unit :=
  let markers := marker_of <$> restaurants in
  let names := name <$> restaurants in
  let ratings := rating <$> restaurants in
  call (folium_Map (lat, lng) 15);;
  add_markers markers;;
  call (folium_static (lat, lng) 15 markers);;
  draw (FoliumStatic (lat, lng) 15 markers);;
  call (pd_DataFrame names ratings);;
  draw (StWrite results_caption);;
  call (st_dataframe names ratings);;
  draw (StDataframe names ratings).

(** Lines 100-125: the body of the [try]. *)
Definition search_and_render (address api_key keyword : string)
    (place_type : option string) : M unit :=
  '(lat, lng) ← get_coordinates address api_key;
  restaurants ← search_nearby_places lat lng api_key None None (Some keyword) place_type;
  match restaurants with
  | [] => draw (StWrite nothing_found)
  | _ => render lat lng restaurants
  end.

Definition main : M unit :=
  let api_key := os_getenv w "GOOGLE_API_KEY" in
  if negb (opt_truthy api_key) then draw (StError api_key_missing)
  else
    let api_key := default "" api_key in
    draw (StTitle app_title);;
    draw (StTextInput address_label);;
    let address := text_input w address_label in
    draw (StTextInput keyword_label);;
    let keyword := text_input w keyword_label in
    draw (StSelectbox place_type_label place_type_options);;
    let place_type := selectbox w place_type_label place_type_options in
    let place_type :=
      if String.eqb place_type "None" then None else Some place_type in
    draw (StButton search_label);;
    if button w search_label then
      if negb (str_truthy address) then draw (StError address_missing)
      else
        try_except
          (search_and_render address api_key keyword place_type)
          (λ e, draw (StError (error_prefix +:+ exn_str w e)))
    else mret ().

End Program.

Definition start : state := {| requests := []; screen := [] |}.

(** ** Vocabulary of the properties *)

(** The filter condition of the comprehension, as a test on a place. *)
Definition passes (min_rating : pyfloat) (place : pyval) : bool :=
  match rating ← py_get place "rating" (PInt 0); py_ge rating min_rating with
  | Return keep => keep
  | Raise _ => false
  end.

(** The places of the upstream array that pass the filter, in place. *)
Definition survivors (min_rating : pyfloat) (places : list pyval) : list pyval :=
  filter (λ place, passes min_rating place = true) places.

(** [v] is a number and [v >= m]. *)
Definition rated_at_least (m : pyfloat) (v : pyval) : Prop :=
  ∃ x, py_number v = Some x ∧ float_ge x m = true.

(** The rating the filter goes by: 0 where the restaurant has none. *)
Definition rating_or_zero (v : pyval) : pyval :=
  match v with
  | PNone => PInt 0
  | _ => v
  end.

Module Spec.







End Spec.

(** A place with a location and whatever rating it has, if any, is one
    the comprehension can handle. *)
Definition place_ok (place : pyval) : Prop :=
  ∃ d geometry location la lo,
    place = PDict d
    ∧ is_Some (py_number (default (PInt 0) (d !! "rating")))
    ∧ d !! "geometry" = Some (PDict geometry)
    ∧ geometry !! "location" = Some (PDict location)
    ∧ location !! "lat" = Some la
    ∧ location !! "lng" = Some lo.

(** The widgets of the form, drawn on every run that has an API key. *)
Definition form : list widget :=
  [StTitle app_title; StTextInput address_label; StTextInput keyword_label;
   StSelectbox place_type_label place_type_options; StButton search_label].

(** ** Sample responses and worlds *)

Module Sample.

Definition dict (fields : list (string * pyval)) : pyval :=
  PDict (list_to_map fields).

Definition located (la lo : Z) : list (string * pyval) :=
  [("geometry", dict [("location", dict [("lat", PInt la); ("lng", PInt lo)])])].

Definition venue (n : string) (r : list (string * pyval)) (la lo : Z) : pyval :=
  dict (r ++ [("name", PStr n); ("vicinity", PStr "2 Chome")] ++ located la lo).

Definition rated (v : pyval) : list (string * pyval) := [("rating", v)].

Definition half (n : Z) : pyval := PFloat (Finite (n # 2)).

(** A geocoding answer with two matches. *)
Definition geocode_ok : pyval :=
  dict [("status", PStr "OK");
        ("results", PList [dict (located 35 135); dict (located 43 141)])].

Definition geocode_zero_results : pyval :=
  dict [("status", PStr "ZERO_RESULTS"); ("results", PList [])].

Definition geocode_ok_empty : pyval :=
  dict [("status", PStr "OK"); ("results", PList [])].

(** Ratings 4.5, 3.5, none and 5. *)
Definition upstream_places : list pyval :=
  [venue "a" (rated (half 9)) 1 2; venue "b" (rated (half 7)) 3 4;
   venue "c" [] 5 6; venue "d" (rated (PInt 5)) 7 8].

Definition places_ok : pyval := dict [("results", PList upstream_places)].

Definition places_denied : pyval := dict [("status", PStr "REQUEST_DENIED")].

Definition site (api_key : option string) (address : string) (pressed : bool)
    (geocode places : pyval) : world :=
  {| os_getenv := λ _, api_key;
     upstream := λ url,
       if String.prefix geocode_endpoint url then JsonBody geocode
       else JsonBody places;
     text_input := λ label, if String.eqb label address_label then address else "sushi";
     selectbox := λ _ _, "cafe";
     button := λ _, pressed;
     runtime_str := λ _, "4.5";
     error_text := λ _, "list index out of range";
     library_raises := λ _, None |}.

Definition kyoto : world := site (Some "k") "Kyoto" true geocode_ok places_ok.

End Sample.

(** ** Further vocabulary *)

(** A place the filter can test: an object whose rating, if it has one,
    is a number. *)
Definition rating_comparable (place : pyval) : Prop :=
  ∃ d, place = PDict d ∧ is_Some (py_number (default (PInt 0) (d !! "rating"))).

(** A place a [Restaurant] can be built from: an object with
    [geometry.location.lat] and [geometry.location.lng]. *)
Definition has_location (place : pyval) : Prop :=
  ∃ d geometry location la lo,
    place = PDict d
    ∧ d !! "geometry" = Some (PDict geometry)
    ∧ geometry !! "location" = Some (PDict location)
    ∧ location !! "lat" = Some la
    ∧ location !! "lng" = Some lo.

(** The library calls [render] makes when none of them raises, in call
    order. *)
Definition render_calls (w : world) (la lo : pyval) (l : list Restaurant)
    : list library_call :=
  [folium_Map (la, lo) 15]
  ++ (folium_Marker <$> (marker_of w <$> l))
  ++ [folium_static (la, lo) 15 (marker_of w <$> l);
      pd_DataFrame (name <$> l) (rating <$> l);
      st_dataframe (name <$> l) (rating <$> l)].

(** None of the given calls raises. *)
Definition go_through (w : world) (calls : list library_call) : Prop :=
  Forall (λ c, library_raises w c = None) calls.

(** The page once the form is drawn and nothing has been requested. *)
Definition form_drawn : state := {| requests := []; screen := form |}.

(** What the search submitted in [main] asks the places service: the
    keyword typed, and the place type chosen unless it is ["None"]. *)
Definition submitted_places_url (w : world) (la lo : pyval) (api_key : string)
    : string :=
  let place_type := selectbox w place_type_label place_type_options in
  places_url w la lo api_key (PInt 1000) (Some (text_input w keyword_label))
    (if String.eqb place_type "None" then None else Some place_type).

(** The string has no [&]. *)
Fixpoint no_ampersand (s : string) : bool :=
  match s with
  | "" => true
  | String c s' => negb (Ascii.eqb c "&") && no_ampersand s'
  end.

Module Scenario.

(** A world given by what each service replies. *)
Definition site (api_key : option string) (address keyword place_type : string)
    (pressed : bool) (geocode places : reply) : world :=
  {| os_getenv := λ _, api_key;
     upstream := λ url,
       if String.prefix geocode_endpoint url then geocode else places;
     text_input := λ label,
       if String.eqb label address_label then address else keyword;
     selectbox := λ _ _, place_type;
     button := λ _, pressed;
     runtime_str := λ _, "4.5";
     error_text := λ _, "list index out of range";
     library_raises := λ _, None |}.

Definition offline : world :=
  site (Some "k") "Kyoto" "" "None" true
    (ConnectionFailed "Connection refused") (ConnectionFailed "Connection refused").

Definition places_down : world :=
  site (Some "k") "Kyoto" "" "None" true
    (JsonBody Sample.geocode_ok) (InvalidJson "Expecting value").

Definition nothing_nearby : world :=
  site (Some "k") "Kyoto" "" "None" true
    (JsonBody Sample.geocode_ok) (JsonBody (Sample.dict [("results", PList [])])).

Definition kyoto : world :=
  site (Some "k") "Kyoto" "" "None" true
    (JsonBody Sample.geocode_ok) (JsonBody Sample.places_ok).

Definition idle : world :=
  site (Some "k") "Kyoto" "" "None" false
    (JsonBody Sample.geocode_ok) (JsonBody Sample.places_ok).

(** Ratings 4.5, null and 5. *)
Definition null_rated : list pyval :=
  [Sample.venue "a" (Sample.rated (Sample.half 9)) 1 2;
   Sample.venue "b" (Sample.rated PNone) 3 4;
   Sample.venue "d" (Sample.rated (PInt 5)) 7 8].

(** Ratings 4.5, 4.5 and 5, the second place without [geometry]. *)
Definition unlocated : list pyval :=
  [Sample.venue "a" (Sample.rated (Sample.half 9)) 1 2;
   Sample.dict (Sample.rated (Sample.half 9));
   Sample.venue "d" (Sample.rated (PInt 5)) 7 8].

Definition places_with (places : list pyval) : world :=
  site (Some "k") "Kyoto" "" "None" true
    (JsonBody Sample.geocode_ok) (JsonBody (Sample.dict [("results", PList places)])).

(** [kyoto] with a library in which the given calls raise. *)
Definition failing (raises : library_call → option string) : world :=
  {| os_getenv := os_getenv kyoto;
     upstream := upstream kyoto;
     text_input := text_input kyoto;
     selectbox := selectbox kyoto;
     button := button kyoto;
     runtime_str := runtime_str kyoto;
     error_text := error_text kyoto;
     library_raises := raises |}.

Definition map_overflow : world :=
  failing (λ c, match c with
                | folium_Map _ _ => Some "int too large to convert to float"
                | _ => None
                end).

Definition table_fails : world :=
  failing (λ c, match c with
                | st_dataframe _ _ => Some "Could not convert"
                | _ => None
                end).

End Scenario.

(** * Properties *)

(** ** How the two calls run *)

Lemma get_coordinates_run w address api_key s :
  get_coordinates w address api_key s =
    (match upstream w (geocode_url address api_key) with
     | ConnectionFailed text | InvalidJson text => Raise (TransportError text)
     | JsonBody result => read_coordinates result
     end, sent (geocode_url address api_key) s).
Proof.
  unfold get_coordinates, requests_get, mbind, M_bind.
  by destruct (upstream w _).
Qed.

Lemma search_nearby_places_run w lat lng api_key radius min_rating keyword place_type s :
  let url := places_url w lat lng api_key (default default_radius radius)
               keyword place_type in
  search_nearby_places w lat lng api_key radius min_rating keyword place_type s =
    (match upstream w url with
     | ConnectionFailed text | InvalidJson text => Raise (TransportError text)
     | JsonBody body => read_places (default default_min_rating min_rating) body
     end, sent url s).
Proof.
  unfold search_nearby_places, requests_get, mbind, M_bind.
  by destruct (upstream w _).
Qed.

(** ** The comprehension *)

Lemma bind_Return {A B} (m : outcome A) (f : A → outcome B) y :
  m ≫= f = Return y → ∃ x, m = Return x ∧ f x = Return y.
Proof. destruct m as [x|e]; cbn; [eauto | discriminate]. Qed.

Ltac bind_inv H :=
  repeat (let x := fresh "x" in let Hx := fresh "Hx" in
          apply bind_Return in H as (x & Hx & H)).

Lemma py_get_Return v key dflt x :
  py_get v key dflt = Return x → ∃ d, v = PDict d ∧ x = default dflt (d !! key).
Proof. destruct v; cbn; intros [= <-] || discriminate. eauto. Qed.

Lemma py_getitem_Return v key x :
  py_getitem v key = Return x → ∃ d, v = PDict d ∧ d !! key = Some x.
Proof.
  destruct v as [| | | | | |d]; cbn; try discriminate.
  destruct (d !! key) eqn:Hd; intros [= <-]. eauto.
Qed.

Lemma restaurant_of_rating place r :
  restaurant_of place = Return r →
  ∃ d, place = PDict d ∧ rating r = default PNone (d !! "rating").
Proof.
  unfold restaurant_of. intros H. bind_inv H.
  apply py_get_Return in Hx0 as (d & -> & ->).
  exists d. split; [done|]. by injection H as <-.
Qed.

Lemma high_rated_survivors m places l :
  high_rated_restaurants m places = Return l →
  Forall2 (λ r place, restaurant_of place = Return r) l (survivors m places).
Proof.
  revert l. induction places as [|place rest IH]; intros l.
  - intros [= <-]. constructor.
  - unfold survivors. rewrite filter_cons. fold (survivors m rest).
    cbn [high_rated_restaurants]. unfold passes.
    destruct (py_get place "rating" (PInt 0)) as [v|e]; cbn; [|done].
    destruct (py_ge v m) as [[|]|e]; cbn; [| |done].
    + destruct (restaurant_of place) as [r|e] eqn:Hr; cbn; [|done].
      destruct (high_rated_restaurants m rest) as [rs|e]; cbn; [|done].
      intros [= <-]. rewrite decide_True by done.
      constructor; [done|]. by apply IH.
    + intros H. rewrite decide_False by done. by apply IH.
Qed.

Lemma passes_rated m place :
  passes m place = true →
  ∃ d, place = PDict d ∧ rated_at_least m (default (PInt 0) (d !! "rating")).
Proof.
  unfold passes, py_ge, rated_at_least.
  destruct place as [| | | | | |d]; cbn; try discriminate.
  destruct (py_number _) as [x|] eqn:Hx; cbn; [|done]. eauto.
Qed.

Lemma zero_below_positive m :
  float_gt m (Finite 0) = true → ¬ rated_at_least m (PInt 0).
Proof.
  intros Hm (x & [= <-] & Hx). cbn in Hx.
  destruct m as [q| | |]; cbn in *; try done.
  change (inject_Z 0) with 0%Q in Hx. by rewrite Hx in Hm.
Qed.

Lemma survivor_rating m place r :
  passes m place = true →
  restaurant_of place = Return r →
  rated_at_least m (rating_or_zero (rating r))
  ∧ (float_gt m (Finite 0) = true →
     rating r ≠ PNone ∧ rated_at_least m (rating r)).
Proof.
  intros (d & -> & Hge)%passes_rated (d' & [= <-] & ->)%restaurant_of_rating.
  destruct (d !! "rating") as [v|]; cbn in *.
  - assert (v ≠ PNone) as Hv by (intros ->; by destruct Hge as (? & [=] & _)).
    by destruct v.
  - split; [done|]. intros Hm. by destruct (zero_below_positive m Hm).
Qed.

Lemma unrated_place_fails m (d : gmap string pyval) :
  d !! "rating" = None → float_gt m (Finite 0) = true → passes m (PDict d) = false.
Proof.
  intros Hd Hm. destruct (passes m (PDict d)) eqn:Hp; [|done].
  apply passes_rated in Hp as (d' & [= <-] & Hge). rewrite Hd in Hge.
  by destruct (zero_below_positive m Hm).
Qed.

Lemma search_nearby_places_Return
    w lat lng api_key radius min_rating keyword place_type s l s' :
  search_nearby_places w lat lng api_key radius min_rating keyword place_type s
    = (Return l, s') →
  ∃ body results places,
    upstream w (places_url w lat lng api_key (default (PInt 1000) radius)
                  keyword place_type) = JsonBody body
    ∧ py_get body "results" (PList []) = Return results
    ∧ py_iter results = Return places
    ∧ high_rated_restaurants (default (Finite 4) min_rating) places = Return l.
Proof.
  rewrite search_nearby_places_run. cbv zeta.
  change default_radius with (PInt 1000).
  change default_min_rating with (Finite 4).
  destruct (upstream w _) as [?|?|body]; intros [= H _]; try done.
  unfold read_places in H. bind_inv H. eauto 10.
Qed.

(** ** Place Search *)

(** C1. Whatever the places service answers and whatever [min_rating] is
    (4.0 when omitted), every restaurant in the list
    [search_nearby_places] returns has a rating [>= min_rating], a
    restaurant without a rating counting as rated 0: the list is built
    from the places that pass the filter; a place without the [rating]
    field does not pass when [min_rating > 0], so that then every
    returned rating is a number [>= min_rating]; under the default no
    returned rating is below 4.0. *)
Theorem search_nearby_places_rating_bound
    w lat lng api_key radius min_rating keyword place_type s l s' :
  search_nearby_places w lat lng api_key radius min_rating keyword place_type s
    = (Return l, s') →
  let m := default (Finite 4) min_rating in
  Forall (λ r, rated_at_least m (rating_or_zero (rating r))) l
  ∧ (∃ body results places,
       upstream w (places_url w lat lng api_key (default (PInt 1000) radius)
                     keyword place_type) = JsonBody body
       ∧ py_get body "results" (PList []) = Return results
       ∧ py_iter results = Return places
       ∧ Forall2 (λ r place, restaurant_of place = Return r) l (survivors m places)
       ∧ (float_gt m (Finite 0) = true →
          ∀ d : gmap string pyval,
            d !! "rating" = None → PDict d ∉ survivors m places))
  ∧ (float_gt m (Finite 0) = true →
     Forall (λ r, rating r ≠ PNone ∧ rated_at_least m (rating r)) l)
  ∧ (min_rating = None → Forall (λ r, rated_at_least (Finite 4) (rating r)) l).
Proof.
  intros (body & results & places & Hup & Hres & Hit & Hl)%search_nearby_places_Return m.
  fold m in Hl. apply high_rated_survivors in Hl.
  assert (Forall (λ r, rated_at_least m (rating_or_zero (rating r))
                       ∧ (float_gt m (Finite 0) = true →
                          rating r ≠ PNone ∧ rated_at_least m (rating r))) l)
    as Hall.
  { eapply Forall2_Forall_l; [exact Hl|].
    apply Forall_forall. intros place [Hp _]%list_elem_of_filter r Hr.
    by apply (survivor_rating m place). }
  split; [|split; [|split]].
  - eapply Forall_impl; [exact Hall|]. by intros r [? _].
  - exists body, results, places. repeat (split; [done|]).
    intros Hm d Hd [Hp _]%list_elem_of_filter.
    by rewrite (unrated_place_fails m d Hd Hm) in Hp.
  - intros Hm. eapply Forall_impl; [exact Hall|]. intros r [_ Hr]. by apply Hr.
  - intros ->. eapply Forall_impl; [exact Hall|]. intros r [_ Hr]. by apply Hr.
Qed.

Lemma search_nearby_places_rating_bound_witness :
  ∃ l s',
    search_nearby_places Sample.kyoto (PInt 35) (PInt 135) "k" None None None None
      start = (Return l, s')
    ∧ length l = 2%nat
    ∧ Forall (λ r, rated_at_least (Finite 4) (rating r)) l.
Proof.
  eexists _, _. split; [reflexivity|]. split; [reflexivity|].
  pose proof (search_nearby_places_rating_bound Sample.kyoto (PInt 35) (PInt 135)
                "k" None None None None start _ _ eq_refl) as H.
  cbv zeta in H. destruct H as (_ & _ & _ & H). exact (H eq_refl).
Defined.

(** C3. When the body of the places response is an object without the
    [results] key, [search_nearby_places] returns the empty list, having
    issued its one request; nothing is raised. *)
Theorem search_nearby_places_missing_results
    w lat lng api_key radius min_rating keyword place_type
    (body : gmap string pyval) s :
  let url := places_url w lat lng api_key (default (PInt 1000) radius)
               keyword place_type in
  upstream w url = JsonBody (PDict body) →
  body !! "results" = None →
  search_nearby_places w lat lng api_key radius min_rating keyword place_type s
    = (Return [], sent url s).
Proof.
  intros url Hup Hres. rewrite search_nearby_places_run. cbv zeta.
  change default_radius with (PInt 1000). fold url. rewrite Hup.
  unfold read_places; cbn. by rewrite Hres.
Qed.

Lemma search_nearby_places_missing_results_witness :
  let w := Sample.site (Some "k") "Kyoto" true Sample.geocode_ok Sample.places_denied in
  search_nearby_places w (PInt 35) (PInt 135) "k" None None (Some "sushi") None start
    = (Return [],
       sent "https://maps.googleapis.com/maps/api/place/nearbysearch/json?location=35,135&radius=1000&key=k&keyword=sushi"
         start).
Proof.
  intros w.
  exact (search_nearby_places_missing_results w (PInt 35) (PInt 135) "k" None None
           (Some "sushi") None (list_to_map [("status", PStr "REQUEST_DENIED")])
           start eq_refl eq_refl).
Defined.

Lemma search_nearby_places_not_object
    w lat lng api_key radius min_rating keyword place_type body s :
  upstream w (places_url w lat lng api_key (default (PInt 1000) radius)
                keyword place_type) = JsonBody body →
  (∀ d, body ≠ PDict d) →
  (search_nearby_places w lat lng api_key radius min_rating keyword place_type s).1
    = Raise (Builtin AttributeError).
Proof.
  intros Hup Hd. rewrite search_nearby_places_run. cbv zeta.
  change default_radius with (PInt 1000). rewrite Hup.
  destruct body as [| | | | | |d]; try done. by destruct (Hd d).
Qed.

Lemma high_rated_returns m places :
  Forall place_ok places → ∃ l, high_rated_restaurants m places = Return l.
Proof.
  induction 1 as [|place rest Hp _ [rs IH]]; [by eexists|].
  destruct Hp as (d & g & loc & la & lo & -> & [x Hx] & Hg & Hloc & Hla & Hlo).
  cbn [high_rated_restaurants]. unfold py_ge; cbn. rewrite Hx; cbn.
  destruct (float_ge x m); [|by eexists].
  unfold restaurant_of; cbn. rewrite Hg; cbn. rewrite Hloc; cbn.
  rewrite Hla, Hlo; cbn. rewrite IH. by eexists.
Qed.

(** C4. The filter of [search_nearby_places] is stable.  When the body of
    the places response carries the array [places] under [results], the
    places that pass the rating filter form a subsequence of [places],
    and the returned list holds their restaurants, one for one in that
    order; a list is returned whenever every place has a location and a
    rating that, if present, is a number. *)
Theorem search_nearby_places_stable
    w lat lng api_key radius min_rating keyword place_type
    (body : gmap string pyval) places s :
  let url := places_url w lat lng api_key (default (PInt 1000) radius)
               keyword place_type in
  let m := default (Finite 4) min_rating in
  let run :=
    search_nearby_places w lat lng api_key radius min_rating keyword place_type s in
  upstream w url = JsonBody (PDict body) →
  body !! "results" = Some (PList places) →
  sublist (survivors m places) places
  ∧ (∀ l, run.1 = Return l →
       Forall2 (λ r place, restaurant_of place = Return r) l (survivors m places))
  ∧ (Forall place_ok places → ∃ l, run.1 = Return l).
Proof.
  intros url m run Hup Hres.
  assert (run.1 = high_rated_restaurants m places) as ->.
  { unfold run. rewrite search_nearby_places_run. cbv zeta.
    change default_radius with (PInt 1000). fold url. rewrite Hup.
    unfold read_places; cbn. by rewrite Hres. }
  split; [apply sublist_filter|]. split.
  - intros l. apply high_rated_survivors.
  - apply high_rated_returns.
Qed.

Lemma search_nearby_places_stable_witness :
  let run :=
    search_nearby_places Sample.kyoto (PInt 35) (PInt 135) "k" None None None None
      start in
  survivors (Finite 4) Sample.upstream_places
    = [Sample.venue "a" (Sample.rated (Sample.half 9)) 1 2;
       Sample.venue "d" (Sample.rated (PInt 5)) 7 8]
  ∧ run.1
    = Return [mkRestaurant (PStr "a") (Sample.half 9) (PStr "2 Chome") (PInt 1) (PInt 2);
              mkRestaurant (PStr "d") (PInt 5) (PStr "2 Chome") (PInt 7) (PInt 8)]
  ∧ sublist (survivors (Finite 4) Sample.upstream_places) Sample.upstream_places
  ∧ (∀ l, run.1 = Return l →
       Forall2 (λ r place, restaurant_of place = Return r) l
         (survivors (Finite 4) Sample.upstream_places))
  ∧ (Forall place_ok Sample.upstream_places → ∃ l, run.1 = Return l).
Proof.
  intros run. split; [reflexivity|]. split; [reflexivity|].
  exact (search_nearby_places_stable Sample.kyoto (PInt 35) (PInt 135) "k"
           None None None None
           (list_to_map [("results", PList Sample.upstream_places)])
           Sample.upstream_places start eq_refl eq_refl).
Defined.

(** ** Geocoder *)

Lemma bind_no_Exception {A B} (m : outcome A) (f : A → outcome B) :
  (∀ message, m ≠ Raise (Exception message)) →
  (∀ x message, f x ≠ Raise (Exception message)) →
  ∀ message, m ≫= f ≠ Raise (Exception message).
Proof. destruct m as [x|e]; cbn; [auto|]. intros H _ message [= ->]. by eapply H. Qed.

Lemma py_getitem_no_Exception v key message :
  py_getitem v key ≠ Raise (Exception message).
Proof. destruct v as [| | | | | |d]; cbn; try done. by destruct (d !! key). Qed.

Lemma py_getitem0_no_Exception v message :
  py_getitem0 v ≠ Raise (Exception message).
Proof. by destruct v as [| | | | [|??] | [|??] |]. Qed.

Lemma str_eqb_OK status :
  py_eq_str status "OK" = true ↔ status = PStr "OK".
Proof.
  destruct status as [| | | |s| |]; cbn; try (split; [done | discriminate]).
  rewrite String.eqb_eq. split; [by intros -> | by intros [= ->]].
Qed.


Lemma read_coordinates_Exception result message :
  read_coordinates result = Raise (Exception message) →
  ∃ (d : gmap string pyval) status,
    result = PDict d ∧ d !! "status" = Some status ∧ status ≠ PStr "OK"
    ∧ message = geocode_failed.
Proof.
  unfold read_coordinates.
  destruct (py_getitem result "status") as [status|e] eqn:Hs; cbn.
  - apply py_getitem_Return in Hs as (d & -> & Hs).
    destruct (py_eq_str status "OK") eqn:Heq.
    + intros H. exfalso. revert H.
      repeat (apply bind_no_Exception;
              [intros; apply py_getitem_no_Exception || apply py_getitem0_no_Exception
              |intros ?]).
      done.
    + intros [= <-]. exists d, status. repeat split; [done|].
      intros Hok%str_eqb_OK. congruence.
  - intros [= ->]. by apply py_getitem_no_Exception in Hs.
Qed.

Lemma main_with_key w api_key :
  os_getenv w "GOOGLE_API_KEY" = Some api_key →
  str_truthy api_key = true →
  let address := text_input w address_label in
  let place_type := selectbox w place_type_label place_type_options in
  let ready := {| requests := []; screen := form |} in
  main w start =
    if button w search_label then
      if str_truthy address
      then
        try_except
          (search_and_render w address api_key (text_input w keyword_label)
             (if String.eqb place_type "None" then None else Some place_type))
          (λ e, draw (StError (error_prefix +:+ exn_str w e))) ready
      else (Return (), {| requests := []; screen := form ++ [StError address_missing] |})
    else (Return (), ready).
Proof.
  intros Hkey Htrue. unfold main. rewrite Hkey. cbn [opt_truthy default].
  rewrite Htrue. cbn [negb].
  unfold mbind, M_bind, draw, start; cbn [requests screen app].
  destruct (button w search_label); [|done].
  by destruct (str_truthy (text_input w address_label)).
Qed.









(** C8. When the geocode response has status ["OK"], [get_coordinates]
    returns the [lat] and [lng] under [geometry.location] of the first
    element of [results], whatever the further matches are. *)
Theorem get_coordinates_first_match
    w address api_key (result first geometry location : gmap string pyval)
    rest la lo s :
  let url := geocode_url address api_key in
  upstream w url = JsonBody (PDict result) →
  result !! "status" = Some (PStr "OK") →
  result !! "results" = Some (PList (PDict first :: rest)) →
  first !! "geometry" = Some (PDict geometry) →
  geometry !! "location" = Some (PDict location) →
  location !! "lat" = Some la →
  location !! "lng" = Some lo →
  get_coordinates w address api_key s = (Return (la, lo), sent url s).
Proof.
  intros url Hup Hs Hr Hg Hl Hla Hlo.
  rewrite get_coordinates_run. fold url. rewrite Hup.
  unfold read_coordinates; cbn. rewrite Hs; cbn. rewrite Hr; cbn.
  rewrite Hg; cbn. rewrite Hl; cbn. by rewrite Hla, Hlo.
Qed.

Lemma get_coordinates_first_match_witness :
  get_coordinates Sample.kyoto "Kyoto" "k" start
    = (Return (PInt 35, PInt 135),
       sent "https://maps.googleapis.com/maps/api/geocode/json?address=Kyoto&key=k"
         start).
Proof.
  exact (get_coordinates_first_match Sample.kyoto "Kyoto" "k"
           (list_to_map
              [("status", PStr "OK");
               ("results", PList [Sample.dict (Sample.located 35 135);
                                  Sample.dict (Sample.located 43 141)])])
           (list_to_map (Sample.located 35 135))
           (list_to_map
              [("location", Sample.dict [("lat", PInt 35); ("lng", PInt 135)])])
           (list_to_map [("lat", PInt 35); ("lng", PInt 135)])
           [Sample.dict (Sample.located 43 141)] (PInt 35) (PInt 135) start
           eq_refl eq_refl eq_refl eq_refl eq_refl eq_refl eq_refl).
Defined.

(** C10. A geocode response with status ["OK"] and an empty [results]
    array makes [get_coordinates] raise the [IndexError] of [results[0]],
    not its own exception; and whenever [get_coordinates] raises an
    [Exception] of its own, the response was an object whose [status] is
    not ["OK"] and the message is the geocoding one. *)
Theorem get_coordinates_ok_without_results w address api_key s :
  let url := geocode_url address api_key in
  (∀ result : gmap string pyval,
     upstream w url = JsonBody (PDict result) →
     result !! "status" = Some (PStr "OK") →
     result !! "results" = Some (PList []) →
     get_coordinates w address api_key s = (Raise (Builtin IndexError), sent url s))
  ∧ (∀ message,
       (get_coordinates w address api_key s).1 = Raise (Exception message) →
       message = geocode_failed
       ∧ ∃ (result : gmap string pyval) status,
           upstream w url = JsonBody (PDict result)
           ∧ result !! "status" = Some status
           ∧ status ≠ PStr "OK").
Proof.
  intros url. split.
  - intros result Hup Hs Hr. rewrite get_coordinates_run. fold url. rewrite Hup.
    unfold read_coordinates; cbn. rewrite Hs; cbn. by rewrite Hr.
  - intros message. rewrite get_coordinates_run. fold url. cbn [fst].
    destruct (upstream w url) as [?|?|result]; try discriminate.
    intros (d & status & -> & Hs & Hne & ->)%read_coordinates_Exception.
    split; [done|]. by exists d, status.
Qed.

Lemma get_coordinates_ok_without_results_witness :
  let w := Sample.site (Some "k") "Atlantis" true
             Sample.geocode_ok_empty Sample.places_ok in
  let w' := Sample.site (Some "k") "Nowhere" true
              Sample.geocode_zero_results Sample.places_ok in
  get_coordinates w "Atlantis" "k" start
    = (Raise (Builtin IndexError),
       sent "https://maps.googleapis.com/maps/api/geocode/json?address=Atlantis&key=k"
         start)
  ∧ ∃ (result : gmap string pyval) status,
      upstream w' (geocode_url "Nowhere" "k") = JsonBody (PDict result)
      ∧ result !! "status" = Some status
      ∧ status ≠ PStr "OK".
Proof.
  intros w w'. split.
  - exact (proj1 (get_coordinates_ok_without_results w "Atlantis" "k" start)
             (list_to_map [("status", PStr "OK"); ("results", PList [])])
             eq_refl eq_refl eq_refl).
  - exact (proj2 (proj2 (get_coordinates_ok_without_results w' "Nowhere" "k" start)
                    geocode_failed eq_refl)).
Defined.

Lemma prefix_nil (s : string) : String.prefix "" s = true.
Proof. by destruct s. Qed.

Lemma prefix_append_r (p u t : string) :
  String.prefix p u = true → String.prefix p (u +:+ t) = true.
Proof.
  revert u. induction p as [|x p IH]; [intros; apply prefix_nil|].
  intros [|y u]; [done|].
  change (String y u +:+ t) with (String y (u +:+ t)). cbn.
  destruct (Ascii.ascii_dec x y); [apply IH | done].
Qed.

Lemma prefix_append (p t : string) : String.prefix p (p +:+ t) = true.
Proof.
  induction p as [|x p IH]; [apply prefix_nil|].
  change (String x p +:+ t) with (String x (p +:+ t)). cbn.
  by destruct (Ascii.ascii_dec x x).
Qed.





(** ** Presentation layer *)

(** C6. With an API key set, pressing search on an empty address draws
    the validation message after the form and issues no request: neither
    [get_coordinates] nor [search_nearby_places] runs. *)
Theorem empty_address_no_request w api_key :
  os_getenv w "GOOGLE_API_KEY" = Some api_key →
  str_truthy api_key = true →
  button w search_label = true →
  text_input w address_label = "" →
  main w start
    = (Return (),
       {| requests := []; screen := form ++ [StError address_missing] |}).
Proof.
  intros Hkey Hk Hb Ha. rewrite (main_with_key w api_key Hkey Hk). cbv zeta.
  by rewrite Hb, Ha.
Qed.

Lemma empty_address_no_request_witness :
  main (Sample.site (Some "k") "" true Sample.geocode_ok Sample.places_ok) start
    = (Return (),
       {| requests := []; screen := form ++ [StError address_missing] |}).
Proof.
  exact (empty_address_no_request
           (Sample.site (Some "k") "" true Sample.geocode_ok Sample.places_ok) "k"
           eq_refl eq_refl eq_refl eq_refl).
Defined.

(** C7. When [GOOGLE_API_KEY] is absent from the environment, [main]
    draws the configuration error and nothing else (no input widget),
    issues no request, and returns normally. *)
Theorem missing_api_key_blocks w :
  os_getenv w "GOOGLE_API_KEY" = None →
  main w start
    = (Return (), {| requests := []; screen := [StError api_key_missing] |}).
Proof. intros Hkey. unfold main. by rewrite Hkey. Qed.

Lemma missing_api_key_blocks_witness :
  main (Sample.site None "Kyoto" true Sample.geocode_ok Sample.places_ok) start
    = (Return (), {| requests := []; screen := [StError api_key_missing] |}).
Proof.
  exact (missing_api_key_blocks
           (Sample.site None "Kyoto" true Sample.geocode_ok Sample.places_ok)
           eq_refl).
Defined.

Lemma search_nearby_places_on_list
    w lat lng api_key radius min_rating keyword place_type
    (body : gmap string pyval) places s :
  upstream w (places_url w lat lng api_key (default (PInt 1000) radius)
                keyword place_type) = JsonBody (PDict body) →
  body !! "results" = Some (PList places) →
  (search_nearby_places w lat lng api_key radius min_rating keyword place_type s).1
    = high_rated_restaurants (default (Finite 4) min_rating) places.
Proof.
  intros Hup Hres. rewrite search_nearby_places_run. cbv zeta.
  change default_radius with (PInt 1000). rewrite Hup.
  unfold read_places; cbn. by rewrite Hres.
Qed.

Lemma str_truthy_nonempty s : s ≠ "" → str_truthy s = true.
Proof. intros Hs. unfold str_truthy. by apply negb_true_iff, String.eqb_neq. Qed.

(** C9. The places request URL ends with [&keyword=...] only when a
    keyword is given and with [&type=...] only when a place type is
    given, in that order; without them it stops at the key, and an empty
    string counts as not given.  When the caller omits [radius] the URL
    carries [radius=1000], and omitting [radius] or [min_rating] is the
    same as passing 1000 or 4.0; with [min_rating] omitted the
    outcome is that of reading the response with the threshold 4.0: on
    an array of well-formed places, the restaurants of the places rated
    4.0 or more, in order. *)
Theorem search_nearby_places_parameters w lat lng api_key s :
  let base radius :=
    places_endpoint +:+ "?location=" +:+ py_str w lat +:+ "," +:+ py_str w lng
      +:+ "&radius=" +:+ radius +:+ "&key=" +:+ api_key in
  (∀ radius,
     places_url w lat lng api_key radius None None = base (py_str w radius)
     ∧ (∀ keyword, keyword ≠ "" →
          places_url w lat lng api_key radius (Some keyword) None
            = base (py_str w radius) +:+ "&keyword=" +:+ keyword)
     ∧ (∀ place_type, place_type ≠ "" →
          places_url w lat lng api_key radius None (Some place_type)
            = base (py_str w radius) +:+ "&type=" +:+ place_type)
     ∧ (∀ keyword place_type, keyword ≠ "" → place_type ≠ "" →
          places_url w lat lng api_key radius (Some keyword) (Some place_type)
            = (base (py_str w radius) +:+ "&keyword=" +:+ keyword)
                +:+ "&type=" +:+ place_type)
     ∧ (∀ place_type,
          places_url w lat lng api_key radius (Some "") place_type
            = places_url w lat lng api_key radius None place_type)
     ∧ (∀ keyword,
          places_url w lat lng api_key radius keyword (Some "")
            = places_url w lat lng api_key radius keyword None))
  ∧ (∀ min_rating keyword place_type,
       requests
         (search_nearby_places w lat lng api_key None min_rating keyword place_type s).2
         = (requests s ++ [places_url w lat lng api_key (PInt 1000) keyword place_type])%list
       ∧ places_url w lat lng api_key (PInt 1000) None None = base "1000"
       ∧ search_nearby_places w lat lng api_key None min_rating keyword place_type s
         = search_nearby_places w lat lng api_key (Some (PInt 1000)) min_rating
             keyword place_type s)
  ∧ (∀ radius keyword place_type,
       search_nearby_places w lat lng api_key radius None keyword place_type s
         = search_nearby_places w lat lng api_key radius (Some (Finite 4))
             keyword place_type s)
  ∧ (∀ radius keyword place_type body,
       upstream w (places_url w lat lng api_key (default (PInt 1000) radius)
                     keyword place_type) = JsonBody body →
       (search_nearby_places w lat lng api_key radius None keyword place_type s).1
         = read_places (Finite 4) body)
  ∧ (∀ radius keyword place_type (body : gmap string pyval) places,
       upstream w (places_url w lat lng api_key (default (PInt 1000) radius)
                     keyword place_type) = JsonBody (PDict body) →
       body !! "results" = Some (PList places) →
       Forall place_ok places →
       ∃ l,
         (search_nearby_places w lat lng api_key radius None keyword place_type s).1
           = Return l
         ∧ Forall2 (λ r place, restaurant_of place = Return r) l
             (filter (λ place, passes (Finite 4) place = true) places)).
Proof.
  intros base. split; [|split; [|split; [|split]]].
  - intros radius. split; [done|]. split; [|split; [|split; [|split]]].
    + intros keyword Hk. unfold places_url; cbn.
      by rewrite (str_truthy_nonempty keyword Hk).
    + intros place_type Ht. unfold places_url; cbn.
      by rewrite (str_truthy_nonempty place_type Ht).
    + intros keyword place_type Hk Ht. unfold places_url; cbn.
      by rewrite (str_truthy_nonempty keyword Hk), (str_truthy_nonempty place_type Ht).
    + done.
    + done.
  - intros min_rating keyword place_type. split; [|split]; [|done..].
    by rewrite search_nearby_places_run.
  - done.
  - intros radius keyword place_type body Hup.
    rewrite search_nearby_places_run. cbv zeta.
    change default_radius with (PInt 1000). by rewrite Hup.
  - intros radius keyword place_type body places Hup Hres Hok.
    rewrite (search_nearby_places_on_list w lat lng api_key radius None keyword
               place_type body places s Hup Hres).
    destruct (high_rated_returns (Finite 4) places Hok) as [l Hl].
    exists l. split; [done|]. by apply high_rated_survivors.
Qed.

Lemma search_nearby_places_parameters_witness :
  places_url Sample.kyoto (PInt 35) (PInt 135) "k" (PInt 500) (Some "sushi") (Some "cafe")
    = "https://maps.googleapis.com/maps/api/place/nearbysearch/json?location=35,135&radius=500&key=k&keyword=sushi&type=cafe"
  ∧ places_url Sample.kyoto (PInt 35) (PInt 135) "k" (PInt 500) (Some "sushi") None
    = "https://maps.googleapis.com/maps/api/place/nearbysearch/json?location=35,135&radius=500&key=k&keyword=sushi"
  ∧ places_url Sample.kyoto (PInt 35) (PInt 135) "k" (PInt 500) None (Some "cafe")
    = "https://maps.googleapis.com/maps/api/place/nearbysearch/json?location=35,135&radius=500&key=k&type=cafe"
  ∧ (search_nearby_places Sample.kyoto (PInt 35) (PInt 135) "k" None None None None
       start).1
    = Return [mkRestaurant (PStr "a") (Sample.half 9) (PStr "2 Chome") (PInt 1) (PInt 2);
              mkRestaurant (PStr "d") (PInt 5) (PStr "2 Chome") (PInt 7) (PInt 8)].
Proof.
  pose proof (search_nearby_places_parameters Sample.kyoto (PInt 35) (PInt 135)
                "k" start) as (Hurl & _ & _ & Hread & _).
  destruct (Hurl (PInt 500)) as (_ & Hk & Ht & Hkt & _).
  split; [|split; [|split]].
  - exact (Hkt "sushi" "cafe" ltac:(discriminate) ltac:(discriminate)).
  - exact (Hk "sushi" ltac:(discriminate)).
  - exact (Ht "cafe" ltac:(discriminate)).
  - exact (Hread None None None Sample.places_ok eq_refl).
Defined.

(** * Further properties *)

(** ** The run of [main] *)

Lemma main_submitted w api_key :
  os_getenv w "GOOGLE_API_KEY" = Some api_key →
  str_truthy api_key = true →
  button w search_label = true →
  str_truthy (text_input w address_label) = true →
  let place_type := selectbox w place_type_label place_type_options in
  main w start =
    try_except
      (search_and_render w (text_input w address_label) api_key
         (text_input w keyword_label)
         (if String.eqb place_type "None" then None else Some place_type))
      (λ e, draw (StError (error_prefix +:+ exn_str w e))) form_drawn.
Proof.
  intros Hkey Hk Hb Ha. rewrite (main_with_key w api_key Hkey Hk). cbv zeta.
  by rewrite Hb, Ha.
Qed.

Lemma search_and_render_geocode_raises w address api_key keyword place_type s e s1 :
  get_coordinates w address api_key s = (Raise e, s1) →
  search_and_render w address api_key keyword place_type s = (Raise e, s1).
Proof. intros H. unfold search_and_render, mbind, M_bind. by rewrite H. Qed.

Lemma search_and_render_search_raises
    w address api_key keyword place_type s la lo s1 e s2 :
  get_coordinates w address api_key s = (Return (la, lo), s1) →
  search_nearby_places w la lo api_key None None (Some keyword) place_type s1
    = (Raise e, s2) →
  search_and_render w address api_key keyword place_type s = (Raise e, s2).
Proof.
  intros Hg Hs. unfold search_and_render, mbind, M_bind. rewrite Hg. by rewrite Hs.
Qed.

Lemma search_and_render_returns
    w address api_key keyword place_type s la lo s1 l s2 :
  get_coordinates w address api_key s = (Return (la, lo), s1) →
  search_nearby_places w la lo api_key None None (Some keyword) place_type s1
    = (Return l, s2) →
  search_and_render w address api_key keyword place_type s =
    match l with
    | [] => (Return (),
             {| requests := requests s2;
                screen := screen s2 ++ [StWrite nothing_found] |})
    | _ => render w la lo l s2
    end.
Proof.
  intros Hg Hs. unfold search_and_render, mbind, M_bind. rewrite Hg. rewrite Hs.
  by destruct l.
Qed.

Lemma call_state w c s : (call w c s).2 = s.
Proof. unfold call. by destruct (library_raises w c). Qed.

Lemma call_goes_through w c s :
  library_raises w c = None → call w c s = (Return (), s).
Proof. intros H. unfold call. by rewrite H. Qed.

Lemma add_markers_state w markers s : (add_markers w markers s).2 = s.
Proof.
  induction markers as [|m rest IH]; [done|].
  cbn [add_markers]. unfold mbind, M_bind.
  pose proof (call_state w (folium_Marker m) s) as Hc.
  destruct (call w (folium_Marker m) s) as [[[]|e] s']; cbn in Hc; subst s'; [|done].
  apply IH.
Qed.

Lemma add_markers_go_through w markers s :
  go_through w (folium_Marker <$> markers) → add_markers w markers s = (Return (), s).
Proof.
  induction markers as [|m rest IH]; [done|].
  intros [Hm Hrest]%Forall_cons. cbn [add_markers]. unfold mbind, M_bind.
  rewrite (call_goes_through w _ s Hm). by apply IH.
Qed.

(** [render] issues no request. *)
Lemma render_requests w la lo l s : requests (render w la lo l s).2 = requests s.
Proof.
  unfold render. cbv zeta. unfold mbind, M_bind.
  pose proof (call_state w (folium_Map (la, lo) 15) s) as H1.
  destruct (call w (folium_Map (la, lo) 15) s) as [[[]|e] s1]; cbn in H1; subst s1;
    [|done].
  pose proof (add_markers_state w (marker_of w <$> l) s) as H2.
  destruct (add_markers w (marker_of w <$> l) s) as [[[]|e] s2]; cbn in H2; subst s2;
    [|done].
  pose proof (call_state w (folium_static (la, lo) 15 (marker_of w <$> l)) s) as H3.
  destruct (call w (folium_static (la, lo) 15 (marker_of w <$> l)) s)
    as [[[]|e] s3]; cbn in H3; subst s3; [|done].
  unfold draw at 1. cbn [fst snd].
  set (s4 := {| requests := requests s; screen := _ |}).
  pose proof (call_state w (pd_DataFrame (name <$> l) (rating <$> l)) s4) as H5.
  destruct (call w (pd_DataFrame (name <$> l) (rating <$> l)) s4)
    as [[[]|e] s5]; cbn in H5; subst s5; [|done].
  unfold draw at 1. cbn [fst snd].
  set (s6 := {| requests := requests s4; screen := _ |}).
  pose proof (call_state w (st_dataframe (name <$> l) (rating <$> l)) s6) as H7.
  by destruct (call w (st_dataframe (name <$> l) (rating <$> l)) s6)
    as [[[]|e] s7]; cbn in H7; subst s7.
Qed.

(** When none of its library calls raises, [render] draws the map, the
    caption and the table. *)
Lemma render_goes_through w la lo l s :
  go_through w (render_calls w la lo l) →
  render w la lo l s
    = (Return (),
       {| requests := requests s;
          screen := screen s ++ [FoliumStatic (la, lo) 15 (marker_of w <$> l);
                                 StWrite results_caption;
                                 StDataframe (name <$> l) (rating <$> l)] |}).
Proof.
  unfold go_through, render_calls.
  intros [Hmap [Hmarkers Hrest]%Forall_app]%Forall_cons.
  apply Forall_cons in Hrest as [Hstatic Hrest].
  apply Forall_cons in Hrest as [Hframe Hrest].
  apply Forall_cons in Hrest as [Htable _].
  unfold render. cbv zeta. unfold mbind, M_bind.
  rewrite (call_goes_through w _ s Hmap).
  rewrite (add_markers_go_through w _ s Hmarkers).
  rewrite (call_goes_through w _ s Hstatic).
  unfold draw at 1. rewrite (call_goes_through w _ _ Hframe).
  unfold draw at 1. rewrite (call_goes_through w _ _ Htable).
  unfold draw; cbn [requests screen]. by rewrite <- !app_assoc.
Qed.

(** X1. [main] never lets an exception escape: whatever the environment
    answers, it returns normally. *)
Theorem main_never_raises w s : (main w s).1 = Return ().
Proof.
  unfold main. destruct (negb _); [done|].
  unfold mbind, M_bind, draw; cbn [fst snd].
  destruct (button w search_label); [|done].
  destruct (negb _); [done|].
  unfold try_except.
  by destruct (search_and_render _ _ _ _ _ _) as [[[]|e] s'].
Qed.

Lemma get_coordinates_any_state w address api_key s s' :
  (get_coordinates w address api_key s).1 = (get_coordinates w address api_key s').1.
Proof. by rewrite !get_coordinates_run. Qed.

Lemma search_nearby_places_any_state
    w la lo api_key radius min_rating keyword place_type s s' :
  (search_nearby_places w la lo api_key radius min_rating keyword place_type s).1
  = (search_nearby_places w la lo api_key radius min_rating keyword place_type s').1.
Proof. by rewrite !search_nearby_places_run. Qed.

(** What a submitted search leaves behind, case by case. *)
Lemma main_submitted_cases w api_key :
  os_getenv w "GOOGLE_API_KEY" = Some api_key →
  str_truthy api_key = true →
  button w search_label = true →
  str_truthy (text_input w address_label) = true →
  let address := text_input w address_label in
  let keyword := text_input w keyword_label in
  let choice := selectbox w place_type_label place_type_options in
  let place_type := if String.eqb choice "None" then None else Some choice in
  let g := geocode_url address api_key in
  match (get_coordinates w address api_key start).1 with
  | Raise e =>
      main w start
        = (Return (),
           {| requests := [g];
              screen := form ++ [StError (error_prefix +:+ exn_str w e)] |})
  | Return (la, lo) =>
      let p := submitted_places_url w la lo api_key in
      match (search_nearby_places w la lo api_key None None (Some keyword)
               place_type start).1 with
      | Raise e =>
          main w start
            = (Return (),
               {| requests := [g; p];
                  screen := form ++ [StError (error_prefix +:+ exn_str w e)] |})
      | Return l =>
          main w start
            = match l with
              | [] =>
                  (Return (),
                   {| requests := [g; p];
                      screen := form ++ [StWrite nothing_found] |})
              | _ =>
                  match render w la lo l {| requests := [g; p]; screen := form |} with
                  | (Return _, s') => (Return (), s')
                  | (Raise e, s') =>
                      (Return (),
                       {| requests := requests s';
                          screen :=
                            screen s' ++ [StError (error_prefix +:+ exn_str w e)] |})
                  end
              end
      end
  end.
Proof.
  intros Hkey Hk Hb Ha address keyword choice place_type g.
  rewrite (main_submitted w api_key Hkey Hk Hb Ha). cbv zeta.
  fold address keyword choice place_type. unfold try_except.
  rewrite (get_coordinates_any_state w address api_key start form_drawn).
  destruct (get_coordinates w address api_key form_drawn) as [[[la lo]|e] s1] eqn:Hg;
    cbn [fst].
  - assert (s1 = sent g form_drawn) as ->
      by (rewrite get_coordinates_run in Hg; by injection Hg).
    cbv zeta.
    rewrite (search_nearby_places_any_state w la lo api_key None None
               (Some keyword) place_type start (sent g form_drawn)).
    destruct (search_nearby_places w la lo api_key None None (Some keyword)
                place_type (sent g form_drawn)) as [[l|e] s2] eqn:Hs; cbn [fst].
    + assert (s2 = sent (submitted_places_url w la lo api_key) (sent g form_drawn))
        as -> by (rewrite search_nearby_places_run in Hs; by injection Hs).
      rewrite (search_and_render_returns _ _ _ _ _ _ _ _ _ _ _ Hg Hs).
      destruct l as [|r l]; [done|].
      change (sent (submitted_places_url w la lo api_key) (sent g form_drawn))
        with {| requests := [g; submitted_places_url w la lo api_key];
                screen := form |}.
      by destruct (render w la lo (r :: l) _) as [[[]|e] s'].
    + assert (s2 = sent (submitted_places_url w la lo api_key) (sent g form_drawn))
        as -> by (rewrite search_nearby_places_run in Hs; by injection Hs).
      by rewrite (search_and_render_search_raises _ _ _ _ _ _ _ _ _ _ _ Hg Hs).
  - assert (s1 = sent g form_drawn) as ->
      by (rewrite get_coordinates_run in Hg; by injection Hg).
    by rewrite (search_and_render_geocode_raises _ _ _ _ _ _ _ _ Hg).
Qed.

(** X2. Whatever exception [get_coordinates] raises in a submitted search
    (transport failure, malformed body, its own), [main] shows its text
    after the fixed prefix, has issued only the geocoding request, and
    returns normally. *)
Theorem main_geocode_error_surfaced w api_key e :
  os_getenv w "GOOGLE_API_KEY" = Some api_key →
  str_truthy api_key = true →
  button w search_label = true →
  str_truthy (text_input w address_label) = true →
  (get_coordinates w (text_input w address_label) api_key start).1 = Raise e →
  main w start
    = (Return (),
       {| requests := [geocode_url (text_input w address_label) api_key];
          screen := form ++ [StError (error_prefix +:+ exn_str w e)] |}).
Proof.
  intros Hkey Hk Hb Ha Hg.
  pose proof (main_submitted_cases w api_key Hkey Hk Hb Ha) as H.
  cbv zeta in H. by rewrite Hg in H.
Qed.

Lemma main_geocode_error_surfaced_witness :
  main Scenario.offline start
    = (Return (),
       {| requests := ["https://maps.googleapis.com/maps/api/geocode/json?address=Kyoto&key=k"];
          screen := form ++ [StError (error_prefix +:+ "Connection refused")] |}).
Proof.
  exact (main_geocode_error_surfaced Scenario.offline "k"
           (TransportError "Connection refused")
           eq_refl eq_refl eq_refl eq_refl eq_refl).
Defined.

(** X3. When geocoding succeeds and the place search raises, [main] shows
    the exception text, has issued the geocoding request and then the
    places request, draws no map, and returns normally. *)
Theorem main_search_error_surfaced w api_key la lo e :
  os_getenv w "GOOGLE_API_KEY" = Some api_key →
  str_truthy api_key = true →
  button w search_label = true →
  str_truthy (text_input w address_label) = true →
  let choice := selectbox w place_type_label place_type_options in
  (get_coordinates w (text_input w address_label) api_key start).1
    = Return (la, lo) →
  (search_nearby_places w la lo api_key None None
     (Some (text_input w keyword_label))
     (if String.eqb choice "None" then None else Some choice) start).1 = Raise e →
  main w start
    = (Return (),
       {| requests := [geocode_url (text_input w address_label) api_key;
                       submitted_places_url w la lo api_key];
          screen := form ++ [StError (error_prefix +:+ exn_str w e)] |}).
Proof.
  intros Hkey Hk Hb Ha choice Hg Hs.
  pose proof (main_submitted_cases w api_key Hkey Hk Hb Ha) as H.
  cbv zeta in H. rewrite Hg in H. fold choice in H. by rewrite Hs in H.
Qed.

Lemma main_search_error_surfaced_witness :
  main Scenario.places_down start
    = (Return (),
       {| requests :=
            ["https://maps.googleapis.com/maps/api/geocode/json?address=Kyoto&key=k";
             "https://maps.googleapis.com/maps/api/place/nearbysearch/json?location=35,135&radius=1000&key=k"];
          screen := form ++ [StError (error_prefix +:+ "Expecting value")] |}).
Proof.
  exact (main_search_error_surfaced Scenario.places_down "k" (PInt 35) (PInt 135)
           (TransportError "Expecting value")
           eq_refl eq_refl eq_refl eq_refl eq_refl eq_refl).
Defined.

(** X4. When geocoding succeeds and the place search returns the empty
    list, [main] writes the nothing-found message after the form and
    draws neither map nor table. *)
Theorem main_nothing_found w api_key la lo :
  os_getenv w "GOOGLE_API_KEY" = Some api_key →
  str_truthy api_key = true →
  button w search_label = true →
  str_truthy (text_input w address_label) = true →
  let choice := selectbox w place_type_label place_type_options in
  (get_coordinates w (text_input w address_label) api_key start).1
    = Return (la, lo) →
  (search_nearby_places w la lo api_key None None
     (Some (text_input w keyword_label))
     (if String.eqb choice "None" then None else Some choice) start).1 = Return [] →
  main w start
    = (Return (),
       {| requests := [geocode_url (text_input w address_label) api_key;
                       submitted_places_url w la lo api_key];
          screen := form ++ [StWrite nothing_found] |}).
Proof.
  intros Hkey Hk Hb Ha choice Hg Hs.
  pose proof (main_submitted_cases w api_key Hkey Hk Hb Ha) as H.
  cbv zeta in H. rewrite Hg in H. fold choice in H. by rewrite Hs in H.
Qed.

Lemma main_nothing_found_witness :
  main Scenario.nothing_nearby start
    = (Return (),
       {| requests :=
            ["https://maps.googleapis.com/maps/api/geocode/json?address=Kyoto&key=k";
             "https://maps.googleapis.com/maps/api/place/nearbysearch/json?location=35,135&radius=1000&key=k"];
          screen := form ++ [StWrite nothing_found] |}).
Proof.
  exact (main_nothing_found Scenario.nothing_nearby "k" (PInt 35) (PInt 135)
           eq_refl eq_refl eq_refl eq_refl eq_refl eq_refl).
Defined.

(** X5. When geocoding succeeds, the place search returns one restaurant
    or more, and none of the library calls that build and show the map
    and the table raises, [main] draws, after the form and in this order,
    the map centred on the geocoded point at zoom 15 with one marker per
    restaurant in list order, the caption, and the table of names and
    ratings in the same order. *)
Theorem main_renders_results w api_key la lo r l :
  os_getenv w "GOOGLE_API_KEY" = Some api_key →
  str_truthy api_key = true →
  button w search_label = true →
  str_truthy (text_input w address_label) = true →
  let choice := selectbox w place_type_label place_type_options in
  (get_coordinates w (text_input w address_label) api_key start).1
    = Return (la, lo) →
  (search_nearby_places w la lo api_key None None
     (Some (text_input w keyword_label))
     (if String.eqb choice "None" then None else Some choice) start).1
    = Return (r :: l) →
  go_through w (render_calls w la lo (r :: l)) →
  ∃ markers,
    main w start
      = (Return (),
         {| requests := [geocode_url (text_input w address_label) api_key;
                         submitted_places_url w la lo api_key];
            screen := form ++ [FoliumStatic (la, lo) 15 markers;
                               StWrite results_caption;
                               StDataframe (name <$> r :: l) (rating <$> r :: l)] |})
    ∧ Forall2 (λ mk x, position mk = (lat x, lng x) ∧ tooltip mk = name x)
        markers (r :: l).
Proof.
  intros Hkey Hk Hb Ha choice Hg Hs Hlib.
  pose proof (main_submitted_cases w api_key Hkey Hk Hb Ha) as H.
  cbv zeta in H. rewrite Hg in H. fold choice in H. rewrite Hs in H.
  rewrite (render_goes_through w la lo (r :: l) _ Hlib) in H.
  exists (marker_of w <$> r :: l). split; [done|].
  apply Forall2_fmap_l, Forall_Forall2_diag, Forall_forall. by intros.
Qed.

Lemma main_renders_results_witness :
  ∃ markers,
    main Scenario.kyoto start
      = (Return (),
         {| requests :=
              ["https://maps.googleapis.com/maps/api/geocode/json?address=Kyoto&key=k";
               "https://maps.googleapis.com/maps/api/place/nearbysearch/json?location=35,135&radius=1000&key=k"];
            screen := form ++ [FoliumStatic (PInt 35, PInt 135) 15 markers;
                               StWrite results_caption;
                               StDataframe [PStr "a"; PStr "d"]
                                 [Sample.half 9; PInt 5]] |})
    ∧ position <$> markers = [(PInt 1, PInt 2); (PInt 7, PInt 8)].
Proof.
  destruct (main_renders_results Scenario.kyoto "k" (PInt 35) (PInt 135)
              (mkRestaurant (PStr "a") (Sample.half 9) (PStr "2 Chome") (PInt 1) (PInt 2))
              [mkRestaurant (PStr "d") (PInt 5) (PStr "2 Chome") (PInt 7) (PInt 8)]
              eq_refl eq_refl eq_refl eq_refl eq_refl eq_refl
              ltac:(repeat (apply List.Forall_cons; [reflexivity|]);
                    apply List.Forall_nil))
    as (markers & Hmain & Hmk).
  exists markers. split; [exact Hmain|].
  inversion Hmk as [|m1 ? ms1 ? [H1 _] Hmk1]; subst.
  inversion Hmk1 as [|m2 ? ms2 ? [H2 _] Hmk2]; subst.
  inversion Hmk2; subst. cbn. by rewrite H1, H2.
Defined.

Lemma main_without_key w :
  opt_truthy (os_getenv w "GOOGLE_API_KEY") = false →
  main w start
    = (Return (), {| requests := []; screen := [StError api_key_missing] |}).
Proof. intros Hkey. unfold main. by rewrite Hkey. Qed.

Lemma opt_truthy_Some o :
  opt_truthy o = true → ∃ s, o = Some s ∧ str_truthy s = true.
Proof. destruct o as [s|]; [eauto | discriminate]. Qed.

(** The requests of a submitted search. *)
Lemma main_submitted_requests w api_key :
  os_getenv w "GOOGLE_API_KEY" = Some api_key →
  str_truthy api_key = true →
  button w search_label = true →
  str_truthy (text_input w address_label) = true →
  requests (main w start).2
    = match (get_coordinates w (text_input w address_label) api_key start).1 with
      | Raise _ => [geocode_url (text_input w address_label) api_key]
      | Return (la, lo) =>
          [geocode_url (text_input w address_label) api_key;
           submitted_places_url w la lo api_key]
      end.
Proof.
  intros Hkey Hk Hb Ha.
  pose proof (main_submitted_cases w api_key Hkey Hk Hb Ha) as H. cbv zeta in H.
  destruct (get_coordinates w _ api_key start).1 as [[la lo]|e]; [|by rewrite H].
  destruct (search_nearby_places w la lo api_key _ _ _ _ start).1 as [[|r l]|e];
    rewrite H; try done.
  pose proof (render_requests w la lo (r :: l)
                {| requests := [geocode_url (text_input w address_label) api_key;
                                submitted_places_url w la lo api_key];
                   screen := form |}) as Hr.
  by destruct (render w la lo (r :: l) _) as [[[]|e] s'].
Qed.

(** X6. [main] issues a request exactly when an API key is set, the
    search button is pressed and the address is not empty; otherwise the
    network is never touched. *)
Theorem main_requests_iff_submitted w :
  requests (main w start).2 ≠ []
  ↔ opt_truthy (os_getenv w "GOOGLE_API_KEY") = true
    ∧ button w search_label = true
    ∧ str_truthy (text_input w address_label) = true.
Proof.
  split.
  - intros Hreq.
    destruct (opt_truthy (os_getenv w "GOOGLE_API_KEY")) eqn:Hkey;
      [|by rewrite (main_without_key w Hkey) in Hreq].
    apply opt_truthy_Some in Hkey as (api_key & Hkey & Hk).
    rewrite (main_with_key w api_key Hkey Hk) in Hreq. cbv zeta in Hreq.
    destruct (button w search_label); [|done].
    by destruct (str_truthy (text_input w address_label)).
  - intros ((api_key & Hkey & Hk)%opt_truthy_Some & Hb & Ha).
    rewrite (main_submitted_requests w api_key Hkey Hk Hb Ha).
    by destruct (get_coordinates w _ api_key start).1 as [[la lo]|e].
Qed.

(** X7. In any run [main] issues no request, or the geocoding request
    alone, or the geocoding request followed by one places request built
    from the coordinates geocoding returned, the keyword typed and the
    place type chosen: never a place search without geocoding first,
    never a third request. *)
Theorem main_requests_shape w :
  let api_key := default "" (os_getenv w "GOOGLE_API_KEY") in
  let address := text_input w address_label in
  let reqs := requests (main w start).2 in
  reqs = []
  ∨ reqs = [geocode_url address api_key]
  ∨ ∃ la lo,
      (get_coordinates w address api_key start).1 = Return (la, lo)
      ∧ reqs = [geocode_url address api_key; submitted_places_url w la lo api_key].
Proof.
  intros api_key address reqs. subst reqs.
  destruct (opt_truthy (os_getenv w "GOOGLE_API_KEY")) eqn:Hkey;
    [|left; by rewrite (main_without_key w Hkey)].
  apply opt_truthy_Some in Hkey as (key & Hkey & Hk).
  assert (api_key = key) as -> by (unfold api_key; by rewrite Hkey).
  destruct (button w search_label) eqn:Hb;
    [|left; rewrite (main_with_key w key Hkey Hk); cbv zeta; by rewrite Hb].
  destruct (str_truthy (text_input w address_label)) eqn:Ha;
    [|left; rewrite (main_with_key w key Hkey Hk); cbv zeta; by rewrite Hb, Ha].
  rewrite (main_submitted_requests w key Hkey Hk Hb Ha). fold address.
  destruct (get_coordinates w address key start).1 as [[la lo]|e];
    [|by right; left].
  right; right. by exists la, lo.
Qed.

(** X8. With an API key set and the search button not pressed, [main]
    draws the form and nothing else, and issues no request. *)
Theorem main_idle w api_key :
  os_getenv w "GOOGLE_API_KEY" = Some api_key →
  str_truthy api_key = true →
  button w search_label = false →
  main w start = (Return (), {| requests := []; screen := form |}).
Proof.
  intros Hkey Hk Hb. rewrite (main_with_key w api_key Hkey Hk). cbv zeta.
  by rewrite Hb.
Qed.

Lemma main_idle_witness :
  main Scenario.idle start = (Return (), {| requests := []; screen := form |}).
Proof. exact (main_idle Scenario.idle "k" eq_refl eq_refl eq_refl). Defined.

(** X9. An API key that is set but empty is treated like a missing one:
    [main] draws the configuration error alone and issues no request. *)
Theorem main_empty_api_key w :
  os_getenv w "GOOGLE_API_KEY" = Some "" →
  main w start
    = (Return (), {| requests := []; screen := [StError api_key_missing] |}).
Proof. intros Hkey. apply main_without_key. by rewrite Hkey. Qed.

Lemma main_empty_api_key_witness :
  main (Scenario.site (Some "") "Kyoto" "" "None" true
          (JsonBody Sample.geocode_ok) (JsonBody Sample.places_ok)) start
    = (Return (), {| requests := []; screen := [StError api_key_missing] |}).
Proof.
  exact (main_empty_api_key
           (Scenario.site (Some "") "Kyoto" "" "None" true
              (JsonBody Sample.geocode_ok) (JsonBody Sample.places_ok))
           eq_refl).
Defined.

(** ** The comprehension, case by case *)

Lemma restaurant_of_located place :
  has_location place →
  ∃ d la lo,
    place = PDict d
    ∧ restaurant_of place
      = Return (mkRestaurant (default PNone (d !! "name"))
                  (default PNone (d !! "rating"))
                  (default PNone (d !! "vicinity")) la lo).
Proof.
  intros (d & g & loc & la & lo & -> & Hg & Hloc & Hla & Hlo).
  exists d, la, lo. split; [done|].
  unfold restaurant_of; cbn. rewrite Hg; cbn. rewrite Hloc; cbn.
  by rewrite Hla, Hlo.
Qed.

Lemma restaurant_of_Return_located place r :
  restaurant_of place = Return r → has_location place.
Proof.
  unfold restaurant_of. intros H. bind_inv H.
  apply py_getitem_Return in Hx2 as (d & -> & Hg).
  apply py_getitem_Return in Hx3 as (g & -> & Hloc).
  apply py_getitem_Return in Hx4 as (loc & -> & Hla).
  apply py_getitem_Return in Hx5 as (d' & [= <-] & Hg').
  rewrite Hg in Hg'. injection Hg' as <-.
  apply py_getitem_Return in Hx6 as (g' & [= <-] & Hloc').
  rewrite Hloc in Hloc'. injection Hloc' as <-.
  apply py_getitem_Return in Hx7 as (loc' & [= <-] & Hlo).
  by exists d, g, loc, x4, x7.
Qed.

(** One step of the comprehension on a place the filter can test. *)
Lemma high_rated_restaurants_step m (d : gmap string pyval) x rest :
  py_number (default (PInt 0) (d !! "rating")) = Some x →
  passes m (PDict d) = float_ge x m
  ∧ high_rated_restaurants m (PDict d :: rest)
    = if float_ge x m
      then r ← restaurant_of (PDict d);
           rs ← high_rated_restaurants m rest;
           Return (r :: rs)
      else high_rated_restaurants m rest.
Proof.
  intros Hx. unfold passes. cbn [high_rated_restaurants].
  unfold py_ge; cbn. by rewrite Hx.
Qed.

Lemma high_rated_restaurants_Return_comparable m place rest l :
  high_rated_restaurants m (place :: rest) = Return l → rating_comparable place.
Proof.
  cbn [high_rated_restaurants]. intros H. bind_inv H.
  apply py_get_Return in Hx as (d & -> & ->). exists d. split; [done|].
  unfold py_ge in Hx0. by destruct (py_number _).
Qed.

(** X10. The comprehension returns a list exactly when every place of the
    array is an object whose rating, if present, is a number, and every
    place that passes the filter has [geometry.location.lat] and [lng]:
    a place that is filtered out may lack its location, one that is kept
    may not. *)
Theorem high_rated_restaurants_returns_iff m places :
  (∃ l, high_rated_restaurants m places = Return l)
  ↔ Forall rating_comparable places ∧ Forall has_location (survivors m places).
Proof.
  induction places as [|place rest IH].
  - split; [by split; constructor | by eexists].
  - unfold survivors. rewrite filter_cons. fold (survivors m rest). split.
    + intros [l Hl].
      pose proof (high_rated_restaurants_Return_comparable m place rest l Hl)
        as Hc.
      destruct (Hc) as (d & -> & [x Hx]).
      destruct (high_rated_restaurants_step m d x rest Hx) as [Hp Hstep].
      rewrite Hstep in Hl. rewrite Hp.
      destruct (float_ge x m).
      * bind_inv Hl. rewrite decide_True by done.
        destruct (proj1 IH (ex_intro _ _ Hx1)) as [Hrest Hloc].
        split; constructor; eauto using restaurant_of_Return_located.
      * rewrite decide_False by done.
        destruct (proj1 IH (ex_intro _ _ Hl)) as [Hrest Hloc].
        split; [by constructor | done].
    + intros [Hc Hloc]. inversion Hc as [|? ? (d & -> & [x Hx]) Hrest]; subst.
      destruct (high_rated_restaurants_step m d x rest Hx) as [Hp Hstep].
      rewrite Hstep. rewrite Hp in Hloc.
      destruct (float_ge x m).
      * rewrite decide_True in Hloc by done.
        inversion Hloc as [|? ? Hd Hloc']; subst.
        destruct (restaurant_of_located _ Hd) as (d' & la & lo & _ & ->).
        destruct (proj2 IH (conj Hrest Hloc')) as [rs ->]. by eexists.
      * rewrite decide_False in Hloc by done. by apply IH.
Qed.

Lemma place_ok_located place : place_ok place → has_location place.
Proof.
  intros (d & g & loc & la & lo & -> & _ & Hg & Hloc & Hla & Hlo).
  by exists d, g, loc, la, lo.
Qed.

(** The first failure decides: well-formed places ahead of it do not
    change the exception the comprehension raises. *)
Lemma high_rated_restaurants_raise_app m pre rest e :
  Forall place_ok pre →
  high_rated_restaurants m rest = Raise e →
  high_rated_restaurants m (pre ++ rest) = Raise e.
Proof.
  intros Hpre Hrest. induction Hpre as [|place pre Hp _ IH]; [done|].
  pose proof (place_ok_located place Hp) as Hloc.
  destruct Hp as (d & g & loc & la & lo & -> & [x Hx] & _).
  cbn [app].
  rewrite (proj2 (high_rated_restaurants_step m d x (pre ++ rest) Hx)).
  destruct (float_ge x m); [|done].
  destruct (restaurant_of_located _ Hloc) as (d' & la' & lo' & _ & ->).
  cbn. by rewrite IH.
Qed.

(** X11. A rating that is present but not a number (JSON [null], a
    string, a list, an object) is not treated as 0: when the places
    ahead of it are well-formed, [search_nearby_places] raises
    [TypeError] and returns no list at all, whatever follows. *)
Theorem search_nearby_places_rating_not_number
    w lat lng api_key radius min_rating keyword place_type
    (body d : gmap string pyval) pre post v s :
  upstream w (places_url w lat lng api_key (default (PInt 1000) radius)
                keyword place_type) = JsonBody (PDict body) →
  body !! "results" = Some (PList (pre ++ PDict d :: post)) →
  Forall place_ok pre →
  d !! "rating" = Some v →
  py_number v = None →
  (search_nearby_places w lat lng api_key radius min_rating keyword place_type s).1
    = Raise (Builtin TypeError).
Proof.
  intros Hup Hres Hpre Hd Hv.
  rewrite (search_nearby_places_on_list _ _ _ _ _ _ _ _ body _ s Hup Hres).
  apply high_rated_restaurants_raise_app; [done|].
  cbn [high_rated_restaurants]. unfold py_ge; cbn. rewrite Hd; cbn. by rewrite Hv.
Qed.

Lemma venue_ok n r la lo :
  is_Some (py_number r) → place_ok (Sample.venue n (Sample.rated r) la lo).
Proof.
  intros Hr. eexists _, _, _, _, _.
  split; [reflexivity|]. split; [exact Hr|].
  split; [reflexivity|]. split; [reflexivity|]. split; reflexivity.
Defined.

Lemma search_nearby_places_rating_not_number_witness :
  (search_nearby_places (Scenario.places_with Scenario.null_rated)
     (PInt 35) (PInt 135) "k" None None None None start).1
    = Raise (Builtin TypeError).
Proof.
  refine (search_nearby_places_rating_not_number
            (Scenario.places_with Scenario.null_rated) (PInt 35) (PInt 135) "k"
            None None None None
            (list_to_map [("results", PList Scenario.null_rated)])
            (list_to_map (Sample.rated PNone ++
                          [("name", PStr "b"); ("vicinity", PStr "2 Chome")] ++
                          Sample.located 3 4))
            [Sample.venue "a" (Sample.rated (Sample.half 9)) 1 2]
            [Sample.venue "d" (Sample.rated (PInt 5)) 7 8]
            PNone start eq_refl eq_refl _ eq_refl eq_refl).
  constructor; [|constructor]. apply venue_ok. by eexists.
Defined.

(** X12. A place that passes the filter but has no [geometry] makes
    [search_nearby_places] raise [KeyError('geometry')] when the places
    ahead of it are well-formed: the restaurants already built are
    dropped with it. *)
Theorem search_nearby_places_survivor_without_geometry
    w lat lng api_key radius min_rating keyword place_type
    (body d : gmap string pyval) pre post s :
  upstream w (places_url w lat lng api_key (default (PInt 1000) radius)
                keyword place_type) = JsonBody (PDict body) →
  body !! "results" = Some (PList (pre ++ PDict d :: post)) →
  Forall place_ok pre →
  passes (default (Finite 4) min_rating) (PDict d) = true →
  d !! "geometry" = None →
  (search_nearby_places w lat lng api_key radius min_rating keyword place_type s).1
    = Raise (Builtin (KeyError (PStr "geometry"))).
Proof.
  intros Hup Hres Hpre Hp Hd.
  rewrite (search_nearby_places_on_list _ _ _ _ _ _ _ _ body _ s Hup Hres).
  apply high_rated_restaurants_raise_app; [done|].
  destruct (passes_rated _ _ Hp) as (d' & [= <-] & x & Hx & Hge).
  rewrite (proj2 (high_rated_restaurants_step _ d x post Hx)), Hge.
  unfold restaurant_of; cbn. by rewrite Hd.
Qed.

Lemma search_nearby_places_survivor_without_geometry_witness :
  (search_nearby_places (Scenario.places_with Scenario.unlocated)
     (PInt 35) (PInt 135) "k" None None None None start).1
    = Raise (Builtin (KeyError (PStr "geometry"))).
Proof.
  refine (search_nearby_places_survivor_without_geometry
            (Scenario.places_with Scenario.unlocated) (PInt 35) (PInt 135) "k"
            None None None None
            (list_to_map [("results", PList Scenario.unlocated)])
            (list_to_map (Sample.rated (Sample.half 9)))
            [Sample.venue "a" (Sample.rated (Sample.half 9)) 1 2]
            [Sample.venue "d" (Sample.rated (PInt 5)) 7 8]
            start eq_refl eq_refl _ eq_refl eq_refl).
  constructor; [|constructor]. apply venue_ok. by eexists.
Defined.

(** ** The threshold *)

Lemma float_ge_trans x y z :
  float_ge x y = true → float_ge y z = true → float_ge x z = true.
Proof.
  destruct x as [a| | |], y as [b| | |], z as [c| | |]; cbn; try done.
  rewrite !Qle_bool_iff. intros Hab Hbc. exact (Qle_trans _ _ _ Hbc Hab).
Qed.

(** X13. Raising the threshold never adds a restaurant: if the
    comprehension returns a list for [m1] and [m2 >= m1], it returns one
    for [m2] too, and that list is a subsequence of the first. *)
Theorem high_rated_restaurants_monotone m1 m2 places l1 :
  float_ge m2 m1 = true →
  high_rated_restaurants m1 places = Return l1 →
  ∃ l2, high_rated_restaurants m2 places = Return l2 ∧ sublist l2 l1.
Proof.
  intros Hm. revert l1. induction places as [|place rest IH]; intros l1 Hl1.
  - injection Hl1 as <-. exists []. split; [done | constructor].
  - destruct (high_rated_restaurants_Return_comparable _ _ _ _ Hl1)
      as (d & -> & [x Hx]).
    rewrite (proj2 (high_rated_restaurants_step m1 d x rest Hx)) in Hl1.
    rewrite (proj2 (high_rated_restaurants_step m2 d x rest Hx)).
    destruct (float_ge x m2) eqn:H2.
    + rewrite (float_ge_trans x m2 m1 H2 Hm) in Hl1. bind_inv Hl1.
      destruct (IH _ Hx1) as (l2 & -> & Hsub). rewrite Hx0. cbn.
      injection Hl1 as <-. eexists. split; [done|]. by constructor.
    + destruct (float_ge x m1).
      * bind_inv Hl1. destruct (IH _ Hx1) as (l2 & -> & Hsub).
        injection Hl1 as <-. exists l2. split; [done|]. by constructor.
      * destruct (IH _ Hl1) as (l2 & -> & Hsub). by exists l2.
Qed.

Lemma high_rated_restaurants_monotone_witness :
  ∃ l2,
    high_rated_restaurants (Finite (19 # 4)) Sample.upstream_places = Return l2
    ∧ sublist l2
        [mkRestaurant (PStr "a") (Sample.half 9) (PStr "2 Chome") (PInt 1) (PInt 2);
         mkRestaurant (PStr "d") (PInt 5) (PStr "2 Chome") (PInt 7) (PInt 8)].
Proof.
  exact (high_rated_restaurants_monotone (Finite 4) (Finite (19 # 4))
           Sample.upstream_places _ eq_refl eq_refl).
Defined.

(** X14. With a threshold at or below 0 a place without the [rating]
    field is kept: when the comprehension returns, its list holds the
    restaurant built from that place, with rating [None]. *)
Theorem high_rated_restaurants_keeps_unrated m places l (d : gmap string pyval) :
  high_rated_restaurants m places = Return l →
  PDict d ∈ places →
  d !! "rating" = None →
  float_ge (Finite 0) m = true →
  ∃ r, r ∈ l ∧ restaurant_of (PDict d) = Return r ∧ rating r = PNone.
Proof.
  intros Hl Hin Hd Hm. apply high_rated_survivors in Hl.
  assert (PDict d ∈ survivors m places) as Hs.
  { apply list_elem_of_filter. split; [|done].
    rewrite (proj1 (high_rated_restaurants_step m d (Finite 0) [] ltac:(by rewrite Hd))).
    done. }
  apply list_elem_of_lookup_1 in Hs as [i Hi].
  destruct (Forall2_lookup_r _ _ _ _ _ Hl Hi) as (r & Hr & Hbuilt).
  exists r. split; [by eapply list_elem_of_lookup_2|]. split; [done|].
  apply restaurant_of_rating in Hbuilt as (d' & [= <-] & ->). by rewrite Hd.
Qed.

Lemma high_rated_restaurants_keeps_unrated_witness :
  ∃ r,
    r ∈ [mkRestaurant (PStr "a") (Sample.half 9) (PStr "2 Chome") (PInt 1) (PInt 2);
         mkRestaurant (PStr "b") (Sample.half 7) (PStr "2 Chome") (PInt 3) (PInt 4);
         mkRestaurant (PStr "c") PNone (PStr "2 Chome") (PInt 5) (PInt 6);
         mkRestaurant (PStr "d") (PInt 5) (PStr "2 Chome") (PInt 7) (PInt 8)]
    ∧ restaurant_of (Sample.venue "c" [] 5 6) = Return r
    ∧ rating r = PNone.
Proof.
  refine (high_rated_restaurants_keeps_unrated (Finite 0) Sample.upstream_places _
            (list_to_map ([("name", PStr "c"); ("vicinity", PStr "2 Chome")] ++
                          Sample.located 5 6))
            eq_refl _ eq_refl eq_refl).
  do 2 apply list_elem_of_further. apply list_elem_of_here.
Defined.

(** ** Malformed responses *)

(** X15. A [results] field that is present but is not an array is not
    read as "no results": JSON [null], a boolean or a number makes
    [search_nearby_places] raise [TypeError]; a non-empty string or
    object makes it raise [AttributeError]; only the empty string and the
    empty object pass as an empty list. *)
Theorem search_nearby_places_results_not_array
    w lat lng api_key radius min_rating keyword place_type
    (body : gmap string pyval) v s :
  let out :=
    (search_nearby_places w lat lng api_key radius min_rating keyword
       place_type s).1 in
  upstream w (places_url w lat lng api_key (default (PInt 1000) radius)
                keyword place_type) = JsonBody (PDict body) →
  body !! "results" = Some v →
  (v = PNone ∨ is_Some (py_number v) → out = Raise (Builtin TypeError))
  ∧ ((∃ c s', v = PStr (String c s')) ∨ (∃ d, v = PDict d ∧ d ≠ ∅) →
     out = Raise (Builtin AttributeError))
  ∧ (v = PStr "" ∨ v = PDict ∅ → out = Return []).
Proof.
  intros out Hup Hres.
  assert (out = (places ← py_iter v;
                 high_rated_restaurants (default (Finite 4) min_rating) places))
    as ->.
  { unfold out. rewrite search_nearby_places_run. cbv zeta.
    change default_radius with (PInt 1000). rewrite Hup.
    unfold read_places; cbn. by rewrite Hres. }
  split; [|split].
  - intros [-> | [x Hx]]; [done|]. by destruct v.
  - intros [(c & s' & ->) | (d & -> & Hd)]; [done|].
    cbn. destruct (map_to_list d) as [|[k x] kxs] eqn:Hl; [|done].
    by apply map_to_list_empty_iff in Hl.
  - intros [-> | ->]; [done|]. cbn. by rewrite map_to_list_empty.
Qed.

Lemma search_nearby_places_results_not_array_witness :
  (search_nearby_places
     (Scenario.site (Some "k") "Kyoto" "" "None" true (JsonBody Sample.geocode_ok)
        (JsonBody (Sample.dict [("results", PNone)])))
     (PInt 35) (PInt 135) "k" None None None None start).1
    = Raise (Builtin TypeError).
Proof.
  exact (proj1 (search_nearby_places_results_not_array
                  (Scenario.site (Some "k") "Kyoto" "" "None" true
                     (JsonBody Sample.geocode_ok)
                     (JsonBody (Sample.dict [("results", PNone)])))
                  (PInt 35) (PInt 135) "k" None None None None
                  (list_to_map [("results", PNone)]) PNone start eq_refl eq_refl)
           (or_introl eq_refl)).
Defined.

(** X16. What [get_coordinates] raises on a response it cannot read: the
    transport's own error when the request or the JSON decoding fails, a
    [TypeError] when the body is not an object, [KeyError('status')] when
    the object has no [status], and [KeyError('results')] when the status
    is ["OK"] and there is no [results]; in none of these cases the
    geocoding message. *)
Theorem get_coordinates_malformed w address api_key s :
  let url := geocode_url address api_key in
  let out := (get_coordinates w address api_key s).1 in
  (∀ text,
     upstream w url = ConnectionFailed text ∨ upstream w url = InvalidJson text →
     out = Raise (TransportError text))
  ∧ (∀ body,
       upstream w url = JsonBody body → (∀ d, body ≠ PDict d) →
       out = Raise (Builtin TypeError))
  ∧ (∀ d : gmap string pyval,
       upstream w url = JsonBody (PDict d) → d !! "status" = None →
       out = Raise (Builtin (KeyError (PStr "status"))))
  ∧ (∀ d : gmap string pyval,
       upstream w url = JsonBody (PDict d) →
       d !! "status" = Some (PStr "OK") → d !! "results" = None →
       out = Raise (Builtin (KeyError (PStr "results")))).
Proof.
  intros url out. unfold out. rewrite get_coordinates_run. fold url. cbn [fst].
  split; [|split; [|split]].
  - by intros text [-> | ->].
  - intros body -> Hd. destruct body as [| | | | | |d]; try done. by destruct (Hd d).
  - intros d -> Hs. unfold read_coordinates; cbn. by rewrite Hs.
  - intros d -> Hs Hr. unfold read_coordinates; cbn. rewrite Hs; cbn. by rewrite Hr.
Qed.

Lemma get_coordinates_malformed_witness :
  (get_coordinates Scenario.offline "Kyoto" "k" start).1
    = Raise (TransportError "Connection refused")
  ∧ (get_coordinates
       (Scenario.site (Some "k") "Kyoto" "" "None" true
          (JsonBody (Sample.dict [("error_message", PStr "denied")]))
          (JsonBody Sample.places_ok)) "Kyoto" "k" start).1
    = Raise (Builtin (KeyError (PStr "status"))).
Proof.
  split.
  - exact (proj1 (get_coordinates_malformed Scenario.offline "Kyoto" "k" start)
             "Connection refused" (or_introl eq_refl)).
  - exact (proj1 (proj2 (proj2 (get_coordinates_malformed
                                  (Scenario.site (Some "k") "Kyoto" "" "None" true
                                     (JsonBody (Sample.dict [("error_message", PStr "denied")]))
                                     (JsonBody Sample.places_ok))
                                  "Kyoto" "k" start)))
             (list_to_map [("error_message", PStr "denied")]) eq_refl eq_refl).
Defined.

(** ** The request URLs *)

Lemma append_assoc (a b c : string) : (a +:+ b) +:+ c = a +:+ (b +:+ c).
Proof.
  induction a as [|x a IH]; [done|].
  change (String x ((a +:+ b) +:+ c) = String x (a +:+ (b +:+ c))).
  by rewrite IH.
Qed.

Lemma append_nonempty (a b : string) : a ≠ "" → a +:+ b ≠ "".
Proof. by destruct a. Qed.

(** X17. The keyword is put into the URL as it is, so a keyword can
    carry a parameter of its own: searching with the keyword
    [k&type=t] and no place type is the very same request, with the
    same outcome, as searching with keyword [k] and place type [t]. *)
Theorem search_nearby_places_keyword_carries_type
    w lat lng api_key radius min_rating k t s :
  k ≠ "" → t ≠ "" →
  search_nearby_places w lat lng api_key radius min_rating
    (Some (k +:+ "&type=" +:+ t)) None s
  = search_nearby_places w lat lng api_key radius min_rating (Some k) (Some t) s.
Proof.
  intros Hk Ht.
  assert (∀ r, places_url w lat lng api_key r (Some (k +:+ "&type=" +:+ t)) None
               = places_url w lat lng api_key r (Some k) (Some t)) as Hurl.
  { intros r. unfold places_url. cbn [opt_truthy default].
    rewrite (str_truthy_nonempty k Hk), (str_truthy_nonempty t Ht).
    rewrite (str_truthy_nonempty _ (append_nonempty k _ Hk)).
    by rewrite !append_assoc. }
  rewrite !search_nearby_places_run. cbv zeta. by rewrite Hurl.
Qed.

Lemma search_nearby_places_keyword_carries_type_witness :
  search_nearby_places Sample.kyoto (PInt 35) (PInt 135) "k" None None
    (Some "sushi&type=bar") None start
  = search_nearby_places Sample.kyoto (PInt 35) (PInt 135) "k" None None
      (Some "sushi") (Some "bar") start.
Proof.
  exact (search_nearby_places_keyword_carries_type Sample.kyoto (PInt 35) (PInt 135)
           "k" None None "sushi" "bar" start
           ltac:(discriminate) ltac:(discriminate)).
Defined.

(** X18. The geocoding URL does not keep address and key apart: the
    address [a&key=b] with key [c] and the address [a] with key
    [b&key=c] give the same request and the same outcome. *)
Theorem get_coordinates_address_key_confused w a b c s :
  get_coordinates w (a +:+ "&key=" +:+ b) c s
  = get_coordinates w a (b +:+ "&key=" +:+ c) s.
Proof.
  assert (geocode_url (a +:+ "&key=" +:+ b) c = geocode_url a (b +:+ "&key=" +:+ c))
    as Hurl by (unfold geocode_url; by rewrite !append_assoc).
  rewrite !get_coordinates_run. by rewrite Hurl.
Qed.

Lemma no_ampersand_split (a a' x x' : string) :
  no_ampersand a = true → no_ampersand a' = true →
  a +:+ String "&" x = a' +:+ String "&" x' → a = a' ∧ x = x'.
Proof.
  revert a'. induction a as [|c a IH]; intros [|c' a']; cbn.
  - by intros _ _ [= ->].
  - intros _ [Hc _]%andb_prop [= <- _]. by rewrite Ascii.eqb_refl in Hc.
  - intros [Hc _]%andb_prop _ [= -> _]. by rewrite Ascii.eqb_refl in Hc.
  - intros [_ Ha]%andb_prop [_ Ha']%andb_prop [= -> Heq].
    by destruct (IH a' Ha Ha' Heq) as [-> ->].
Qed.

(** X19. For addresses without [&] the geocoding URL determines the
    address and the key: two calls issue the same request only if they
    were given the same address and the same key. *)
Theorem geocode_url_injective address api_key address' api_key' :
  no_ampersand address = true →
  no_ampersand address' = true →
  geocode_url address api_key = geocode_url address' api_key' →
  address = address' ∧ api_key = api_key'.
Proof.
  intros Ha Ha' Heq. unfold geocode_url in Heq.
  apply (inj (String.app geocode_endpoint)) in Heq.
  apply (inj (String.app "?address=")) in Heq.
  destruct (no_ampersand_split _ _ _ _ Ha Ha' Heq) as [-> Hk].
  split; [done|]. by injection Hk.
Qed.

Lemma geocode_url_injective_witness :
  "Kyoto" = "Kyoto" ∧ "k" = "k".
Proof.
  exact (geocode_url_injective "Kyoto" "k" "Kyoto" "k" eq_refl eq_refl eq_refl).
Defined.

(** X20. Whether it returns or raises, [search_nearby_places] issues
    exactly one GET, to the places endpoint, and draws nothing: no retry
    after a failure, no second page. *)
Theorem search_nearby_places_one_request
    w lat lng api_key radius min_rating keyword place_type s :
  ∃ url,
    String.prefix places_endpoint url = true
    ∧ requests
        (search_nearby_places w lat lng api_key radius min_rating keyword
           place_type s).2 = (requests s ++ [url])%list
    ∧ screen
        (search_nearby_places w lat lng api_key radius min_rating keyword
           place_type s).2 = screen s.
Proof.
  rewrite search_nearby_places_run. cbv zeta. eexists. split; [|done].
  unfold places_url.
  destruct (opt_truthy keyword), (opt_truthy place_type);
    repeat first [apply prefix_append | apply prefix_append_r].
Qed.

(** ** From the upstream array to the page *)

Lemma restaurant_of_fields place r :
  restaurant_of place = Return r →
  ∃ d, place = PDict d
       ∧ name r = default PNone (d !! "name")
       ∧ rating r = default PNone (d !! "rating")
       ∧ address r = default PNone (d !! "vicinity").
Proof.
  unfold restaurant_of. intros H. bind_inv H.
  apply py_get_Return in Hx as (d & -> & ->).
  apply py_get_Return in Hx0 as (d' & [= <-] & ->).
  apply py_get_Return in Hx1 as (d' & [= <-] & ->).
  exists d. by injection H as <-.
Qed.

Lemma Forall2_with_r {A B} (P : A → B → Prop) (Q : B → Prop) l k :
  Forall2 P l k → Forall Q k → Forall2 (λ x y, P x y ∧ Q y) l k.
Proof. induction 1; inversion 1; subst; constructor; auto. Qed.

Lemma survivors_pass m places :
  Forall (λ place, passes m place = true) (survivors m places).
Proof. apply Forall_forall. by intros place [Hp _]%list_elem_of_filter. Qed.

(** X21. End to end, for a submitted search whose geocoding succeeds and
    whose places response is an array of well-formed places: when no
    place is rated 4.0 or more the page shows the nothing-found message
    and no map; otherwise, provided none of the library calls that build
    and show the map and the table raises, it shows the map with exactly
    one marker per upstream place rated 4.0 or more, and a table whose
    name and rating columns are those places' names and ratings, each
    rating a number [>= 4.0], in upstream order. *)
Theorem main_shows_survivors w api_key la lo (body : gmap string pyval) places :
  os_getenv w "GOOGLE_API_KEY" = Some api_key →
  str_truthy api_key = true →
  button w search_label = true →
  str_truthy (text_input w address_label) = true →
  (get_coordinates w (text_input w address_label) api_key start).1
    = Return (la, lo) →
  upstream w (submitted_places_url w la lo api_key) = JsonBody (PDict body) →
  body !! "results" = Some (PList places) →
  Forall place_ok places →
  let reqs := [geocode_url (text_input w address_label) api_key;
               submitted_places_url w la lo api_key] in
  let kept := survivors (Finite 4) places in
  (kept = [] →
     main w start
       = (Return (), {| requests := reqs; screen := form ++ [StWrite nothing_found] |}))
  ∧ (kept ≠ [] →
     (∀ l, high_rated_restaurants (Finite 4) places = Return l →
           go_through w (render_calls w la lo l)) →
     ∃ markers names ratings,
       main w start
         = (Return (),
            {| requests := reqs;
               screen := form ++ [FoliumStatic (la, lo) 15 markers;
                                  StWrite results_caption;
                                  StDataframe names ratings] |})
       ∧ length markers = length kept
       ∧ Forall2 (λ v place, ∃ d, place = PDict d ∧ v = default PNone (d !! "name"))
           names kept
       ∧ Forall2 (λ v place,
                    rated_at_least (Finite 4) v
                    ∧ ∃ d, place = PDict d ∧ d !! "rating" = Some v)
           ratings kept).
Proof.
  intros Hkey Hk Hb Ha Hg Hup Hres Hok reqs kept.
  pose proof (main_submitted_cases w api_key Hkey Hk Hb Ha) as H.
  cbv zeta in H. rewrite Hg in H.
  rewrite (search_nearby_places_on_list w la lo api_key None None _ _ body places
             start Hup Hres) in H.
  destruct (high_rated_returns (Finite 4) places Hok) as [l Hl].
  cbn [default] in H. rewrite Hl in H.
  pose proof Hl as Hbuilt.
  apply high_rated_survivors in Hbuilt. fold kept in Hbuilt.
  split.
  - intros Hnil. rewrite Hnil in Hbuilt. inversion Hbuilt; subst. exact H.
  - intros Hkept Hlib. specialize (Hlib l Hl). rename Hbuilt into Hl'.
    destruct l as [|r l]; [by inversion Hl'|]. clear Hl. rename Hl' into Hl.
    rewrite (render_goes_through w la lo (r :: l) _ Hlib) in H.
    exists (marker_of w <$> r :: l), (name <$> r :: l), (rating <$> r :: l).
    split; [exact H|]. split; [|split].
    + rewrite length_fmap. by eapply Forall2_length.
    + apply Forall2_fmap_l. eapply Forall2_impl; [exact Hl|].
      intros x place (d & -> & Hn & _)%restaurant_of_fields. by exists d.
    + apply Forall2_fmap_l.
      eapply Forall2_impl;
        [exact (Forall2_with_r _ _ _ _ Hl (survivors_pass (Finite 4) places))|].
      intros x place [Hx Hp]. cbn.
      destruct (survivor_rating (Finite 4) place x Hp Hx) as [_ Hr].
      destruct (Hr eq_refl) as [Hne Hrated]. split; [done|].
      apply restaurant_of_fields in Hx as (d & -> & _ & Hrat & _).
      exists d. split; [done|]. rewrite Hrat in Hne |- *.
      by destruct (d !! "rating").
Qed.

Lemma main_shows_survivors_witness :
  ∃ markers names ratings,
    main Scenario.kyoto start
      = (Return (),
         {| requests :=
              ["https://maps.googleapis.com/maps/api/geocode/json?address=Kyoto&key=k";
               "https://maps.googleapis.com/maps/api/place/nearbysearch/json?location=35,135&radius=1000&key=k"];
            screen := form ++ [FoliumStatic (PInt 35, PInt 135) 15 markers;
                               StWrite results_caption;
                               StDataframe names ratings] |})
    ∧ length markers = 2%nat.
Proof.
  destruct (main_shows_survivors Scenario.kyoto "k" (PInt 35) (PInt 135)
              (list_to_map [("results", PList Sample.upstream_places)])
              Sample.upstream_places
              eq_refl eq_refl eq_refl eq_refl eq_refl eq_refl eq_refl)
    as [_ H].
  - repeat constructor; apply venue_ok || idtac; try by eexists.
    eexists _, _, _, _, _.
    split; [reflexivity|]. split; [by eexists|].
    split; [reflexivity|]. split; [reflexivity|]. split; reflexivity.
  - destruct H as (markers & names & ratings & Hmain & Hlen & _);
      [discriminate | intros l _; apply Forall_forall; reflexivity |].
    by exists markers, names, ratings.
Defined.

(** ** More on the comprehension *)

(** X22. An element of [results] that is not an object (a string, a
    number, [null], a nested array) makes [search_nearby_places] raise
    [AttributeError] when the places ahead of it are well-formed. *)
Theorem search_nearby_places_place_not_object
    w lat lng api_key radius min_rating keyword place_type
    (body : gmap string pyval) pre post v s :
  upstream w (places_url w lat lng api_key (default (PInt 1000) radius)
                keyword place_type) = JsonBody (PDict body) →
  body !! "results" = Some (PList (pre ++ v :: post)) →
  Forall place_ok pre →
  (∀ d, v ≠ PDict d) →
  (search_nearby_places w lat lng api_key radius min_rating keyword place_type s).1
    = Raise (Builtin AttributeError).
Proof.
  intros Hup Hres Hpre Hv.
  rewrite (search_nearby_places_on_list _ _ _ _ _ _ _ _ body _ s Hup Hres).
  apply high_rated_restaurants_raise_app; [done|].
  destruct v as [| | | | | |d]; try done. by destruct (Hv d).
Qed.

Lemma search_nearby_places_place_not_object_witness :
  (search_nearby_places
     (Scenario.places_with
        [Sample.venue "a" (Sample.rated (Sample.half 9)) 1 2; PStr "closed"])
     (PInt 35) (PInt 135) "k" None None None None start).1
    = Raise (Builtin AttributeError).
Proof.
  refine (search_nearby_places_place_not_object
            (Scenario.places_with
               [Sample.venue "a" (Sample.rated (Sample.half 9)) 1 2; PStr "closed"])
            (PInt 35) (PInt 135) "k" None None None None
            (list_to_map
               [("results",
                 PList [Sample.venue "a" (Sample.rated (Sample.half 9)) 1 2;
                        PStr "closed"])])
            [Sample.venue "a" (Sample.rated (Sample.half 9)) 1 2] []
            (PStr "closed") start eq_refl eq_refl _ _).
  - constructor; [|constructor]. apply venue_ok. by eexists.
  - discriminate.
Defined.

(** X23. A place rated [NaN] is never kept, whatever the threshold: no
    restaurant of a returned list has the rating [NaN]. *)
Theorem high_rated_restaurants_drops_nan m places l :
  high_rated_restaurants m places = Return l →
  Forall (λ r, rating r ≠ PFloat NaN) l.
Proof.
  intros Hl%high_rated_survivors.
  eapply Forall2_Forall_l; [exact Hl|].
  apply Forall_forall. intros place [Hp _]%list_elem_of_filter r Hr Hnan.
  destruct (survivor_rating m place r Hp Hr) as [(x & Hx & Hge) _].
  rewrite Hnan in Hx. by injection Hx as <-.
Qed.

Lemma high_rated_restaurants_drops_nan_witness :
  high_rated_restaurants NegInf
    [Sample.venue "n" (Sample.rated (PFloat NaN)) 1 2; Sample.venue "c" [] 5 6]
    = Return [mkRestaurant (PStr "c") PNone (PStr "2 Chome") (PInt 5) (PInt 6)]
  ∧ Forall (λ r, rating r ≠ PFloat NaN)
      [mkRestaurant (PStr "c") PNone (PStr "2 Chome") (PInt 5) (PInt 6)].
Proof.
  split; [reflexivity|].
  exact (high_rated_restaurants_drops_nan NegInf
           [Sample.venue "n" (Sample.rated (PFloat NaN)) 1 2; Sample.venue "c" [] 5 6]
           _ eq_refl).
Defined.

(** X24. The comprehension works place by place, left to right: on two
    arrays put end to end it yields the restaurants of the first followed
    by those of the second, and raises what the first raises, or else
    what the second raises. *)
Theorem high_rated_restaurants_app m xs ys :
  high_rated_restaurants m (xs ++ ys)%list
  = l1 ← high_rated_restaurants m xs;
    l2 ← high_rated_restaurants m ys;
    Return (l1 ++ l2)%list.
Proof.
  induction xs as [|place xs IH].
  - cbn. by destruct (high_rated_restaurants m ys).
  - cbn [app high_rated_restaurants].
    destruct (py_get place "rating" (PInt 0)) as [v|e]; cbn; [|done].
    destruct (py_ge v m) as [[|]|e]; cbn; [| |done].
    + destruct (restaurant_of place) as [r|e]; cbn; [|done].
      rewrite IH.
      destruct (high_rated_restaurants m xs) as [l1|e]; cbn; [|done].
      by destruct (high_rated_restaurants m ys).
    + exact IH.
Qed.

(** ** When a library call raises *)

(** X25. When geocoding succeeds, the place search returns one restaurant
    or more and [folium.Map] raises on the geocoded point, [main] draws
    no map and no table: the page shows the form and the error message
    with the exception text, after the two requests. *)
Theorem main_map_error_surfaced w api_key la lo r l text :
  os_getenv w "GOOGLE_API_KEY" = Some api_key →
  str_truthy api_key = true →
  button w search_label = true →
  str_truthy (text_input w address_label) = true →
  let choice := selectbox w place_type_label place_type_options in
  (get_coordinates w (text_input w address_label) api_key start).1
    = Return (la, lo) →
  (search_nearby_places w la lo api_key None None
     (Some (text_input w keyword_label))
     (if String.eqb choice "None" then None else Some choice) start).1
    = Return (r :: l) →
  library_raises w (folium_Map (la, lo) 15) = Some text →
  main w start
    = (Return (),
       {| requests := [geocode_url (text_input w address_label) api_key;
                       submitted_places_url w la lo api_key];
          screen := form ++ [StError (error_prefix +:+ text)] |}).
Proof.
  intros Hkey Hk Hb Ha choice Hg Hs Hmap.
  pose proof (main_submitted_cases w api_key Hkey Hk Hb Ha) as H.
  cbv zeta in H. rewrite Hg in H. fold choice in H. rewrite Hs in H.
  rewrite H. unfold render, mbind, M_bind, call. cbv zeta. by rewrite Hmap.
Qed.

Lemma main_map_error_surfaced_witness :
  main Scenario.map_overflow start
    = (Return (),
       {| requests :=
            ["https://maps.googleapis.com/maps/api/geocode/json?address=Kyoto&key=k";
             "https://maps.googleapis.com/maps/api/place/nearbysearch/json?location=35,135&radius=1000&key=k"];
          screen := form ++ [StError (error_prefix +:+ "int too large to convert to float")] |}).
Proof.
  exact (main_map_error_surfaced Scenario.map_overflow "k" (PInt 35) (PInt 135)
           (mkRestaurant (PStr "a") (Sample.half 9) (PStr "2 Chome") (PInt 1) (PInt 2))
           [mkRestaurant (PStr "d") (PInt 5) (PStr "2 Chome") (PInt 7) (PInt 8)]
           "int too large to convert to float"
           eq_refl eq_refl eq_refl eq_refl eq_refl eq_refl eq_refl).
Defined.

(** X26. When the map is built and shown and the table is built, but
    [st.dataframe] raises, the map and the caption stay on the page and
    the error message follows them; no table is drawn. *)
Theorem main_table_error_surfaced w api_key la lo r l text :
  os_getenv w "GOOGLE_API_KEY" = Some api_key →
  str_truthy api_key = true →
  button w search_label = true →
  str_truthy (text_input w address_label) = true →
  let choice := selectbox w place_type_label place_type_options in
  let markers := marker_of w <$> r :: l in
  let names := name <$> r :: l in
  let ratings := rating <$> r :: l in
  (get_coordinates w (text_input w address_label) api_key start).1
    = Return (la, lo) →
  (search_nearby_places w la lo api_key None None
     (Some (text_input w keyword_label))
     (if String.eqb choice "None" then None else Some choice) start).1
    = Return (r :: l) →
  go_through w ([folium_Map (la, lo) 15] ++ (folium_Marker <$> markers)
                ++ [folium_static (la, lo) 15 markers; pd_DataFrame names ratings]) →
  library_raises w (st_dataframe names ratings) = Some text →
  main w start
    = (Return (),
       {| requests := [geocode_url (text_input w address_label) api_key;
                       submitted_places_url w la lo api_key];
          screen := form ++ [FoliumStatic (la, lo) 15 markers;
                             StWrite results_caption;
                             StError (error_prefix +:+ text)] |}).
Proof.
  intros Hkey Hk Hb Ha choice markers names ratings Hg Hs Hlib Htable.
  pose proof (main_submitted_cases w api_key Hkey Hk Hb Ha) as H.
  cbv zeta in H. rewrite Hg in H. fold choice in H. rewrite Hs in H.
  rewrite H. clear H. unfold go_through in Hlib.
  apply Forall_cons in Hlib as [Hmap [Hmarkers Hrest]%Forall_app].
  apply Forall_cons in Hrest as [Hstatic Hrest].
  apply Forall_cons in Hrest as [Hframe _].
  unfold render. cbv zeta. fold markers names ratings. unfold mbind, M_bind.
  rewrite (call_goes_through w _ _ Hmap).
  rewrite (add_markers_go_through w _ _ Hmarkers).
  rewrite (call_goes_through w _ _ Hstatic).
  unfold draw at 1. rewrite (call_goes_through w _ _ Hframe).
  unfold draw at 1. unfold call. rewrite Htable.
  cbn [requests screen]. by rewrite <- ?app_assoc.
Qed.

Lemma main_table_error_surfaced_witness :
  ∃ markers,
    main Scenario.table_fails start
      = (Return (),
         {| requests :=
              ["https://maps.googleapis.com/maps/api/geocode/json?address=Kyoto&key=k";
               "https://maps.googleapis.com/maps/api/place/nearbysearch/json?location=35,135&radius=1000&key=k"];
            screen := form ++ [FoliumStatic (PInt 35, PInt 135) 15 markers;
                               StWrite results_caption;
                               StError (error_prefix +:+ "Could not convert")] |}).
Proof.
  eexists.
  refine (main_table_error_surfaced Scenario.table_fails "k" (PInt 35) (PInt 135)
           (mkRestaurant (PStr "a") (Sample.half 9) (PStr "2 Chome") (PInt 1) (PInt 2))
           [mkRestaurant (PStr "d") (PInt 5) (PStr "2 Chome") (PInt 7) (PInt 8)]
           "Could not convert"
           eq_refl eq_refl eq_refl eq_refl eq_refl eq_refl _ eq_refl).
  repeat (apply List.Forall_cons; [reflexivity|]). apply List.Forall_nil.
Defined.
